(** * ArgumentParsing: a shallow embedding of the attribute-to-flag binding
      engine and the properties of its specification.

    The development follows the layout of the Python sources:
    [_iterables.py], [_exceptions.py], [argument_parse_error.py],
    [_str_enum.py], [property_like.py], [argument.py],
    [property_argument_parser.py], [_inspection.py] and [arguments.py].
    Definitions come first, one module per source file; the properties of
    the specification follow. *)

From Stdlib Require Import String Ascii List Bool Arith Lia.
Import ListNotations.
Open Scope string_scope.
Set Warnings "-register-all".

(* ================================================================== *)
(** * Part I: the model *)
(* ================================================================== *)

(** ** Python objects shared by the modules *)

(** Exception objects as far as the error chain can see them.  A [Foreign]
    exception is any exception whose class has no [inner_exception]
    attribute; it is represented by its string form [str(e)].  A [Domain]
    exception is an instance of [ExceptionBase] or of one of its
    subclasses: [ExceptionBase.__init__] hands [message] to
    [Exception.__init__], so [str(e)] is [message]. *)
Inductive DomainClass : Type :=
  | CExceptionBase
  | CArgumentParseError.

Inductive PyException : Type :=
  | Foreign (text : string)
  | Domain (cls : DomainClass) (message : string)
           (inner_exception : option PyException).

(** What a call can raise. *)
Inductive Raised : Type :=
  | AttributeError (message : string)
  | TypeError (message : string)
  | KeyError (message : string)
  | ValueError (message : string)
  | StopIteration
  | RecursionError
  | SystemExit (status : nat)
  | ArgumentError (message : string)
  | DomainError (e : PyException).

(** Outcome of a call: a value, or a raised exception. *)
Inductive result (A : Type) : Type :=
  | Ok (a : A)
  | Raise (e : Raised).
Arguments Ok {A} a.
Arguments Raise {A} e.

Definition bind {A B : Type} (m : result A) (k : A -> result B) : result B :=
  match m with
  | Ok a => k a
  | Raise e => Raise e
  end.

Notation "x <- m ;; k" := (bind m (fun x => k))
  (at level 61, m at next level, right associativity).

(** Truthiness of an optional string: [None] and [''] are falsy. *)
Definition truthy_str (s : option string) : bool :=
  match s with
  | None => false
  | Some t => negb (t =? "")
  end.

(** [a or b] on optional strings. *)
Definition or_str (a b : option string) : option string :=
  if truthy_str a then a else b.

(** ** _iterables.py *)
Module Iterables.

(** [flatten(items, delimiter)]: the items different from [''] joined
    with the delimiter.  The items are strings at both call sites, so
    [str(item)] is the item. *)
Definition flatten (items : list string) (delimiter : string) : string :=
  let values := filter (fun item => negb (item =? "")) items in
  String.concat delimiter values.

(** [get_first_item(iterable)] with the default condition:
    [next] of the generator, [StopIteration] on an empty iterable. *)
Definition get_first_item {T : Type} (iterable : list T) : result T :=
  match iterable with
  | [] => Raise StopIteration
  | first :: _ => Ok first
  end.

(** [unwrap(item, un_wrapper)].  The function recurses once per nesting
    level; [depth] is the number of frames the interpreter still grants
    (the recursion limit), and exhausting it raises [RecursionError]. *)
Fixpoint unwrap {T : Type} (depth : nat) (item : option T)
         (un_wrapper : T -> option T) : result (list T) :=
  match item with
  | None => Ok []
  | Some it =>
      match depth with
      | O => Raise RecursionError
      | S depth' =>
          let child := un_wrapper it in
          children <- unwrap depth' child un_wrapper ;;
          Ok (children ++ [it])%list
      end
  end.

End Iterables.

(** ** _exceptions.py and argument_parse_error.py *)
Module Exceptions.

(** [str(error)]. *)
Definition str (error : PyException) : string :=
  match error with
  | Foreign text => text
  | Domain _ message _ => message
  end.

(** [ExceptionBase(message, inner_exception)]. *)
Definition ExceptionBase (message : string)
           (inner_exception : option PyException) : PyException :=
  Domain CExceptionBase message inner_exception.

(** [ArgumentParseError(message, inner_exception)]: the constructor
    prefixes the message before handing it to [ExceptionBase]. *)
Definition ArgumentParseError (message : string)
           (inner_exception : option PyException) : PyException :=
  let error := "Argument error: " ++ message in
  Domain CArgumentParseError error inner_exception.

(** [ExceptionBase._get_inner_exception]: the [inner_exception]
    attribute when the object has one, else [None]. *)
Definition _get_inner_exception (exception : PyException)
  : option PyException :=
  match exception with
  | Domain _ _ inner => inner
  | Foreign _ => None
  end.

(** [ExceptionBase.unwrap]. *)
Definition unwrap (depth : nat) (self : PyException)
  : result (list PyException) :=
  Iterables.unwrap depth (Some self) _get_inner_exception.

(** [ExceptionBase._flatten(formatter)]; [linesep] is [os.linesep]. *)
Definition _flatten (linesep : string) (depth : nat) (self : PyException)
           (formatter : PyException -> string) : result string :=
  errors <- unwrap depth self ;;
  let messages := map formatter errors in
  Ok (Iterables.flatten messages linesep).

(** [ExceptionBase.flatten]. *)
Definition flatten (linesep : string) (depth : nat) (self : PyException)
  : result string :=
  _flatten linesep depth self (fun error => str error).

End Exceptions.

(** ** _str_enum.py *)
Module StrEnum.

(** A member of an enumeration: its canonical name and its value. *)
Record Member : Type := mkMember {
  member_name : string;
  member_value : string
}.

(** An enumeration class: [__name__] and the ordered mapping
    [__members__] from declared names (aliases included) to members. *)
Record EnumClass : Type := mkEnum {
  cls_name : string;
  cls_members : list (string * Member)
}.

Definition keys (cls : EnumClass) : list string :=
  map fst (cls_members cls).

(** [cls.__members__[name]], the lookup behind [cls[name]]. *)
Fixpoint lookup (name : string) (members : list (string * Member))
  : option Member :=
  match members with
  | [] => None
  | (k, m) :: rest => if k =? name then Some m else lookup name rest
  end.

(** [StrEnum.has_member]: [member in cls.__members__]. *)
Definition has_member (cls : EnumClass) (member : string) : bool :=
  existsb (fun k => k =? member) (keys cls).

(** [StrEnum.assert_member_is_defined]. *)
Definition assert_member_is_defined (cls : EnumClass) (member : string)
  : result unit :=
  if negb (has_member cls member) then
    let members := Iterables.flatten (keys cls) ", " in
    let error :=
      "The member '" ++ member ++ "' is not a valid value for '"
      ++ cls_name cls ++ "', expected members are: '" ++ members ++ "'" in
    Raise (KeyError error)
  else Ok tt.

(** [cls[name]]. *)
Definition getitem (cls : EnumClass) (name : string) : result Member :=
  match lookup name (cls_members cls) with
  | Some item => Ok item
  | None => Raise (KeyError name)
  end.

(** [StrEnum.from_name]. *)
Definition from_name (cls : EnumClass) (name : string) : result Member :=
  _ <- assert_member_is_defined cls name ;;
  item <- getitem cls name ;;
  Ok item.

End StrEnum.

(** ** Python types, values and function objects *)

(** The classes a declared type can be.  [TTypingList args] is the alias
    [typing.List[...]] with its [__args__]; [TClass name base] is a class
    defined by the user with one base class. *)
Inductive PyType : Type :=
  | TObject
  | TStr
  | TInt
  | TFloat
  | TBool
  | TList
  | TTypingList (args : list PyType)
  | TClass (name : string) (base : PyType).

(** [value.__name__]. *)
Definition type_name (value : PyType) : string :=
  match value with
  | TObject => "object"
  | TStr => "str"
  | TInt => "int"
  | TFloat => "float"
  | TBool => "bool"
  | TList => "list"
  | TTypingList _ => "List"
  | TClass name _ => name
  end.

(** [issubclass(value, bool)]. *)
Fixpoint issubclass_bool (value : PyType) : bool :=
  match value with
  | TBool => true
  | TClass _ base => issubclass_bool base
  | _ => false
  end.

(** [issubclass(value, list)] and [issubclass(value, typing.List)].  Both
    hold of [list], of the classes derived from it and of the subscripted
    aliases [List[...]]; the alias is treated the way
    [_resolve_generic_type] relies on, as a class accepted by
    [issubclass]. *)
Fixpoint issubclass_list (value : PyType) : bool :=
  match value with
  | TList => true
  | TTypingList _ => true
  | TClass _ base => issubclass_list base
  | _ => false
  end.

(** [value.__args__]: only the subscripted alias has the attribute. *)
Definition type_args (value : PyType) : result (list PyType) :=
  match value with
  | TTypingList args => Ok args
  | _ => Raise (AttributeError
                  ("type object '" ++ type_name value
                   ++ "' has no attribute '__args__'"))
  end.

(** Values; Python's [None] is the [None] of [option PyValue]. *)
Inductive PyValue : Type :=
  | VStr (s : string)
  | VInt (n : nat)
  | VBool (b : bool)
  | VList (items : list PyValue).

(** A function object: [__name__], [__doc__] and the ['return'] entry of
    [__annotations__] when there is one. *)
Record PyFunction : Type := mkFunction {
  fn_name : string;
  fn_doc : option string;
  fn_return : option PyType
}.

(** ** str.strip *)

(** A string is a sequence of characters with code points below 256, an
    [ascii] holding the code point.  The white space [str.strip()] removes
    among them: tab, line feed, vertical tab, form feed and carriage
    return (9..13), the four separators 28..31, the space (32), the next
    line character U+0085 (133) and the no-break space U+00A0 (160). *)
Definition is_space (c : ascii) : bool :=
  let n := nat_of_ascii c in
  (((9 <=? n) && (n <=? 13)) || ((28 <=? n) && (n <=? 32))
   || (n =? 133) || (n =? 160))%nat.

Fixpoint lstrip (s : string) : string :=
  match s with
  | EmptyString => EmptyString
  | String c rest => if is_space c then lstrip rest else s
  end.

Fixpoint rstrip (s : string) : string :=
  match s with
  | EmptyString => EmptyString
  | String c rest =>
      let rest' := rstrip rest in
      if is_space c && (rest' =? "") then EmptyString else String c rest'
  end.

Definition strip (s : string) : string := rstrip (lstrip s).

(** ** property_like.py and argument.py *)
Module Argument.

(** The descriptor object: the fields of [PropertyLike] ([fget], [fset],
    [fdel], [__doc__]) followed by those [Argument.__init__] adds. *)
Record Argument : Type := mkArgument {
  fget : option PyFunction;
  fset : option PyFunction;
  fdel : option PyFunction;
  doc : option string;
  help : option string;
  default : option PyValue;
  value : option PyValue;
  nargs : option string;
  const : option PyValue;
  choices : option (list string);
  required : bool;
  name : option string;
  overridden_type : option PyType;
  type : option PyType;
  metavar : option string;
  overridden_action : option string;
  action : option string;
  has_initializer : bool
}.

Definition _default_action : string := "store".
Definition _default_type : PyType := TStr.

(** [Argument.__init__], after [PropertyLike.__init__()]. *)
Definition __init__ (help : option string) (type : option PyType)
           (default : option PyValue) (nargs : option string)
           (const : option PyValue) (choices : option (list string))
           (metavar : option string) (required : bool)
           (action : option string) : Argument :=
  {| fget := None; fset := None; fdel := None; doc := None;
     help := help;
     default := default;
     value := default;
     nargs := nargs;
     const := const;
     choices := choices;
     required := required;
     name := None;
     overridden_type := type;
     type := None;
     metavar := metavar;
     overridden_action := action;
     action := None;
     has_initializer := false |}.

(** Attribute assignments [self.x = v]. *)
Definition set_fget (self : Argument) (v : option PyFunction) : Argument :=
  mkArgument v (fset self) (fdel self) (doc self) (help self)
    (default self) (value self) (nargs self) (const self) (choices self)
    (required self) (name self) (overridden_type self) (type self)
    (metavar self) (overridden_action self) (action self)
    (has_initializer self).

Definition set_fset (self : Argument) (v : option PyFunction) : Argument :=
  mkArgument (fget self) v (fdel self) (doc self) (help self)
    (default self) (value self) (nargs self) (const self) (choices self)
    (required self) (name self) (overridden_type self) (type self)
    (metavar self) (overridden_action self) (action self)
    (has_initializer self).

Definition set_fdel (self : Argument) (v : option PyFunction) : Argument :=
  mkArgument (fget self) (fset self) v (doc self) (help self)
    (default self) (value self) (nargs self) (const self) (choices self)
    (required self) (name self) (overridden_type self) (type self)
    (metavar self) (overridden_action self) (action self)
    (has_initializer self).

Definition set_doc (self : Argument) (v : option string) : Argument :=
  mkArgument (fget self) (fset self) (fdel self) v (help self)
    (default self) (value self) (nargs self) (const self) (choices self)
    (required self) (name self) (overridden_type self) (type self)
    (metavar self) (overridden_action self) (action self)
    (has_initializer self).

Definition set_help (self : Argument) (v : option string) : Argument :=
  mkArgument (fget self) (fset self) (fdel self) (doc self) v
    (default self) (value self) (nargs self) (const self) (choices self)
    (required self) (name self) (overridden_type self) (type self)
    (metavar self) (overridden_action self) (action self)
    (has_initializer self).

Definition set_value (self : Argument) (v : option PyValue) : Argument :=
  mkArgument (fget self) (fset self) (fdel self) (doc self) (help self)
    (default self) v (nargs self) (const self) (choices self)
    (required self) (name self) (overridden_type self) (type self)
    (metavar self) (overridden_action self) (action self)
    (has_initializer self).

Definition set_required (self : Argument) (v : bool) : Argument :=
  mkArgument (fget self) (fset self) (fdel self) (doc self) (help self)
    (default self) (value self) (nargs self) (const self) (choices self)
    v (name self) (overridden_type self) (type self)
    (metavar self) (overridden_action self) (action self)
    (has_initializer self).

Definition set_name (self : Argument) (v : option string) : Argument :=
  mkArgument (fget self) (fset self) (fdel self) (doc self) (help self)
    (default self) (value self) (nargs self) (const self) (choices self)
    (required self) v (overridden_type self) (type self)
    (metavar self) (overridden_action self) (action self)
    (has_initializer self).

Definition set_type (self : Argument) (v : option PyType) : Argument :=
  mkArgument (fget self) (fset self) (fdel self) (doc self) (help self)
    (default self) (value self) (nargs self) (const self) (choices self)
    (required self) (name self) (overridden_type self) v
    (metavar self) (overridden_action self) (action self)
    (has_initializer self).

Definition set_metavar (self : Argument) (v : option string) : Argument :=
  mkArgument (fget self) (fset self) (fdel self) (doc self) (help self)
    (default self) (value self) (nargs self) (const self) (choices self)
    (required self) (name self) (overridden_type self) (type self)
    v (overridden_action self) (action self)
    (has_initializer self).

Definition set_action (self : Argument) (v : option string) : Argument :=
  mkArgument (fget self) (fset self) (fdel self) (doc self) (help self)
    (default self) (value self) (nargs self) (const self) (choices self)
    (required self) (name self) (overridden_type self) (type self)
    (metavar self) (overridden_action self) v
    (has_initializer self).

Definition set_has_initializer (self : Argument) (v : bool) : Argument :=
  mkArgument (fget self) (fset self) (fdel self) (doc self) (help self)
    (default self) (value self) (nargs self) (const self) (choices self)
    (required self) (name self) (overridden_type self) (type self)
    (metavar self) (overridden_action self) (action self)
    v.

(** [PropertyLike.getter], [PropertyLike.setter], [PropertyLike.deleter]. *)
Definition PropertyLike_getter (self : Argument) (getter : PyFunction)
  : Argument := set_fget self (Some getter).

Definition setter (self : Argument) (setter : PyFunction) : Argument :=
  set_fset self (Some setter).

Definition deleter (self : Argument) (deleter : PyFunction) : Argument :=
  set_fdel self (Some deleter).

(** [Argument._get_doc]: [doc = getter.__doc__ or self.help], then
    [doc.strip()], which [None] does not have. *)
Definition _get_doc (self : Argument) (getter : PyFunction)
  : result string :=
  let doc := or_str (fn_doc getter) (help self) in
  match doc with
  | Some text => Ok (strip text)
  | None =>
      Raise (AttributeError "'NoneType' object has no attribute 'strip'")
  end.

(** [Argument._get_type_from_annotation]. *)
Definition _get_type_from_annotation (getter : PyFunction) : PyType :=
  match fn_return getter with
  | Some return_type => return_type
  | None => _default_type
  end.

(** [Argument._get_action_type]. *)
Definition _get_action_type (value : PyType) : string :=
  let action := _default_action in
  let action := if issubclass_bool value then "store_switch" else action in
  let action := if issubclass_list value then "store_list" else action in
  action.

(** [Argument._get_first_generic_type]. *)
Definition _get_first_generic_type (value : PyType) : result PyType :=
  generic_types <- type_args value ;;
  Iterables.get_first_item generic_types.

(** [Argument._resolve_generic_type]. *)
Definition _resolve_generic_type (value : PyType) : result PyType :=
  let is_list := issubclass_list value in
  if is_list then _get_first_generic_type value else Ok value.

(** [Argument._get_type]: a class is always truthy, so
    [self.overridden_type or ...] is the override whenever one was
    given. *)
Definition _get_type (self : Argument) (getter : PyFunction)
  : result PyType :=
  let return_type :=
    match overridden_type self with
    | Some t => t
    | None => _get_type_from_annotation getter
    end in
  _resolve_generic_type return_type.

(** [Argument.getter].  The descriptor is updated in place, so the
    updated descriptor is returned together with the outcome: the
    assignments made before an exception stay. *)
Definition getter (self : Argument) (getter : PyFunction)
  : Argument * result unit :=
  let self := PropertyLike_getter self getter in
  let self := set_name self (Some (fn_name getter)) in
  match _get_type self getter with
  | Raise e => (self, Raise e)
  | Ok resolved =>
      let self := set_type self (Some resolved) in
      let self :=
        set_metavar self (or_str (metavar self) (Some (type_name resolved))) in
      let self := set_action self (Some (_get_action_type resolved)) in
      match _get_doc self getter with
      | Raise e => (self, Raise e)
      | Ok stripped_doc =>
          let self := set_doc self (Some stripped_doc) in
          let self := set_help self (or_str (help self) (doc self)) in
          (self, Ok tt)
      end
  end.

End Argument.

(** ** The flag-parsing library behind the adapter *)

(** One call [add_argument(flag, action=..., default=..., type=...,
    metavar=..., required=..., help=...)]. *)
Record FlagRegistration : Type := mkRegistration {
  reg_flag : string;
  reg_action : option string;
  reg_default : option PyValue;
  reg_type : option PyType;
  reg_metavar : option string;
  reg_required : bool;
  reg_help : option string
}.

(** The mapping [vars(namespace)]: destination name to parsed value. *)
Definition Namespace : Type := list (string * option PyValue).

(** What [parse_known_args] of the library does with an input: it returns
    the namespace and the unrecognized tokens, or it reports a parse
    failure by calling the parser's [error(message)] method, or it raises
    by itself (for instance [SystemExit] after a help request). *)
Inductive ParseOutcome : Type :=
  | Parsed (namespace : Namespace) (extras : list string)
  | CallsError (message : string)
  | Raises (e : Raised).

Inductive Formatter : Type :=
  | HelpFormatter
  | ArgumentDefaultsHelpFormatter.

(** The library is a black box; the development is parametric in its
    behaviour.  [lib_add_argument earlier r] is the library's check of a
    new registration against the ones already made. *)
Record FlagLibrary : Type := mkLibrary {
  lib_add_argument : list FlagRegistration -> FlagRegistration -> result unit;
  lib_parse_known_args : list FlagRegistration -> list string -> ParseOutcome;
  lib_format_help : Formatter -> list FlagRegistration -> result string
}.

(** The part of a token that names an option: the text before the first
    [=]. *)
Fixpoint option_part (tok : string) : string :=
  match tok with
  | EmptyString => EmptyString
  | String c rest =>
      if Ascii.eqb c "="%char then EmptyString
      else String c (option_part rest)
  end.



(** ** The process as the orchestrator sees it *)

(** An instance of the declaring type: its attribute dictionary. *)
Definition Instance : Type := list (string * option PyValue).

Inductive Event : Type :=
  | ReadArgv
  | PrintUsage
  | Construct (kwargs : list (string * option PyValue))
  | SetAttr (attribute : string) (v : option PyValue).

(** The descriptors are class attributes shared by every call, so they are
    part of the state; [argv] is [sys.argv[1:]]; [events] is the trace of
    what has been done to the outside so far, oldest first. *)
Record World : Type := mkWorld {
  descriptors : list Argument.Argument;
  argv : list string;
  events : list Event
}.

Definition set_descriptors (w : World) (args : list Argument.Argument)
  : World := mkWorld args (argv w) (events w).

Definition emit (w : World) (ev : Event) : World :=
  mkWorld (descriptors w) (argv w) (events w ++ [ev]).

(** A parameter of a signature: [param.default is Parameter.empty] exactly
    when [param_has_default] is [false]. *)
Record InitializerParameter : Type := mkParameter {
  param_name : string;
  param_has_default : bool
}.

(** The declaring type: the parameters of [__init__] (the class reference
    first), what calling the class with keyword arguments does, and what
    [instance.__setattr__] does. *)
Record ClassDef : Type := mkClass {
  init_signature : list InitializerParameter;
  construct : list (string * option PyValue) -> result Instance;
  setattr : Instance -> string -> option PyValue -> result Instance
}.

(** ** _inspection.py *)
Module Inspection.

(** [get_callable_parameters(class_var.__init__)]. *)
Definition get_callable_parameters (cls : ClassDef) : list InitializerParameter :=
  init_signature cls.

(** [get_parameters_without_class_reference]: [parameters[1:]]. *)
Definition get_parameters_without_class_reference (cls : ClassDef)
  : list InitializerParameter :=
  let parameters := get_callable_parameters cls in
  tl parameters.

(** [get_initialization_args]. *)
Definition get_initialization_args (cls : ClassDef) : list InitializerParameter :=
  get_parameters_without_class_reference cls.

End Inspection.

(** ** property_argument_parser.py *)
Module PropertyArgumentParser.

(** The parser object: its formatter class and the registrations made
    so far. *)
Record Parser : Type := mkParser {
  formatter_class : Formatter;
  registrations : list FlagRegistration
}.

Definition _flag : string := "--".

(** [PropertyArgumentParser(formatter_class=...)]. *)
Definition __init__ (formatter : Formatter) : Parser :=
  mkParser formatter [].

(** [argparse.ArgumentParser.error], the method the adapter overrides:
    usage to stderr, then [exit(2)]. *)
Definition ArgumentParser_error {A : Type} (w : World) (message : string)
  : World * result A :=
  (emit w PrintUsage, Raise (SystemExit 2)).

(** [PropertyArgumentParser.error]. *)
Definition error {A : Type} (w : World) (message : string)
  : World * result A :=
  let w := emit w PrintUsage in
  (w, Raise (DomainError (Exceptions.ArgumentParseError message None))).

(** [PropertyArgumentParser.add_argument_details]; [self._flag +
    arg.name] is a [TypeError] when the descriptor has no name yet. *)
Definition add_argument_details (lib : FlagLibrary) (self : Parser)
           (arg : Argument.Argument) : result Parser :=
  match Argument.name arg with
  | None => Raise (TypeError "must be str, not NoneType")
  | Some name =>
      let arg_name := _flag ++ name in
      let r := mkRegistration arg_name (Argument.action arg)
                 (Argument.default arg) (Argument.type arg)
                 (Argument.metavar arg) (Argument.required arg)
                 (Argument.help arg) in
      _ <- lib_add_argument lib (registrations self) r ;;
      Ok (mkParser (formatter_class self) (registrations self ++ [r]))
  end.

(** [parser.parse_known_args()]: reads the process input and lets the
    library parse it; a failure the library reports goes through
    [error]. *)
Definition parse_known_args (lib : FlagLibrary) (self : Parser) (w : World)
  : World * result (Namespace * list string) :=
  let w := emit w ReadArgv in
  match lib_parse_known_args lib (registrations self) (argv w) with
  | Parsed namespace extras => (w, Ok (namespace, extras))
  | CallsError message => error w message
  | Raises e => (w, Raise e)
  end.

(** [parser.format_help()]. *)
Definition format_help (lib : FlagLibrary) (self : Parser) : result string :=
  lib_format_help lib (formatter_class self) (registrations self).

End PropertyArgumentParser.

(** ** arguments.py *)
Module Arguments.

Import Argument.

(** A dictionary built by a comprehension: a later entry with a key
    already present replaces the value and keeps the position. *)
Definition key_eqb (a b : option string) : bool :=
  match a, b with
  | Some x, Some y => x =? y
  | None, None => true
  | _, _ => false
  end.

Fixpoint dict_set {V : Type} (k : option string) (v : V)
         (d : list (option string * V)) : list (option string * V) :=
  match d with
  | [] => [(k, v)]
  | (k', v') :: rest =>
      if key_eqb k' k then (k', v) :: rest
      else (k', v') :: dict_set k v rest
  end.

(** [**kwargs]: every key has to be a string. *)
Fixpoint keywords {V : Type} (d : list (option string * V))
  : result (list (string * V)) :=
  match d with
  | [] => Ok []
  | (Some k, v) :: rest => kw <- keywords rest ;; Ok ((k, v) :: kw)
  | (None, _) :: _ => Raise (TypeError "keywords must be strings")
  end.

(** [f'{arg.name}']. *)
Definition format_name (name : option string) : string :=
  match name with
  | Some text => text
  | None => "None"
  end.

(** [arg.name == param.name], [property_arg.name == name]. *)
Definition name_is (arg : Argument) (other : string) : bool :=
  match name arg with
  | Some text => text =? other
  | None => false
  end.

Definition is_none {A : Type} (v : option A) : bool :=
  match v with
  | None => true
  | Some _ => false
  end.

Definition is_some {A : Type} (v : option A) : bool := negb (is_none v).

Definition _default_formatter : Formatter := ArgumentDefaultsHelpFormatter.

(** [Arguments._has_required_initializer]. *)
Definition _has_required_initializer (param : InitializerParameter)
  : bool := negb (param_has_default param).

(** [Arguments._assert_argument_can_be_set]. *)
Definition _assert_argument_can_be_set (arg : Argument) : result unit :=
  let can_be_set := is_some (fset arg) || required arg in
  if negb can_be_set then
    let error :=
      format_name (name arg) ++ " Argument must have a setter or "
      ++ "a non-default initialization arg defined in its __init__ method."
    in Raise (AttributeError error)
  else Ok tt.

(** [Arguments._set_required_arg]: the two flags are assigned before the
    assertion runs. *)
Definition _set_required_arg (arg : Argument)
           (param : InitializerParameter) : Argument * result unit :=
  let arg := set_has_initializer arg true in
  let arg :=
    set_required arg
      (_has_required_initializer param && is_none (default arg)) in
  (arg, _assert_argument_can_be_set arg).

(** The inner loop of [_mark_required_args], for one descriptor. *)
Fixpoint _mark_required_arg (arg : Argument)
         (params : list InitializerParameter) : Argument * result unit :=
  match params with
  | [] => (arg, Ok tt)
  | param :: rest =>
      if name_is arg (param_name param) then
        match _set_required_arg arg param with
        | (arg', Ok _) => _mark_required_arg arg' rest
        | (arg', Raise e) => (arg', Raise e)
        end
      else _mark_required_arg arg rest
  end.

(** [Arguments._mark_required_args]: an exception leaves the descriptors
    after the offending one untouched. *)
Fixpoint _mark_required_args (args : list Argument)
         (params : list InitializerParameter)
  : list Argument * result unit :=
  match args with
  | [] => ([], Ok tt)
  | arg :: rest =>
      match _mark_required_arg arg params with
      | (arg', Ok _) =>
          let (rest', r) := _mark_required_args rest params in
          (arg' :: rest', r)
      | (arg', Raise e) => (arg' :: rest, Raise e)
      end
  end.

(** The inner loop of [_assign_parsed_values], for one descriptor. *)
Fixpoint _assign_parsed_value (property_arg : Argument) (args : Namespace)
  : Argument :=
  match args with
  | [] => property_arg
  | (name, v) :: rest =>
      if name_is property_arg name
      then _assign_parsed_value (set_value property_arg v) rest
      else _assign_parsed_value property_arg rest
  end.

(** [Arguments._assign_parsed_values]. *)
Definition _assign_parsed_values (property_args : list Argument)
           (args : Namespace) : list Argument :=
  map (fun property_arg => _assign_parsed_value property_arg args)
      property_args.

(** [Arguments._use_initializer]. *)
Definition _use_initializer (arg : Argument) : bool :=
  has_initializer arg && (is_some (fset arg) || required arg).

(** [Arguments._get_initialization_params]. *)
Definition _get_initialization_params (parsed_args : list Argument)
  : list (option string * option PyValue) :=
  let initialization_args := filter _use_initializer parsed_args in
  fold_left (fun d arg => dict_set (name arg) (value arg) d)
            initialization_args [].

Section Orchestrator.

Variable lib : FlagLibrary.
Variable cls : ClassDef.

(** [Arguments._get_arguments_without_class_reference]: the descriptor
    objects of the class, in the order [inspect.getmembers] lists
    them. *)
Definition _get_arguments_without_class_reference (w : World)
  : list Argument := descriptors w.

(** [Arguments._get_required_initialization_params]. *)
Definition _get_required_initialization_params
  : list InitializerParameter :=
  let init_args := Inspection.get_initialization_args cls in
  filter _has_required_initializer init_args.

(** [Arguments._check_required_args]. *)
Definition _check_required_args (w : World) : World * result unit :=
  let required_params := _get_required_initialization_params in
  let (args, r) := _mark_required_args (descriptors w) required_params in
  (set_descriptors w args, r).

(** [Arguments._add_arguments]. *)
Fixpoint _add_arguments (parser : PropertyArgumentParser.Parser)
         (property_args : list Argument)
  : result PropertyArgumentParser.Parser :=
  match property_args with
  | [] => Ok parser
  | property_arg :: rest =>
      parser' <- PropertyArgumentParser.add_argument_details
                   lib parser property_arg ;;
      _add_arguments parser' rest
  end.

(** [Arguments._parse_known_args]. *)
Definition _parse_known_args (parser : PropertyArgumentParser.Parser)
           (w : World) : World * result Namespace :=
  match PropertyArgumentParser.parse_known_args lib parser w with
  | (w', Ok (namespace, _)) => (w', Ok namespace)
  | (w', Raise e) => (w', Raise e)
  end.

(** [Arguments._parse_and_check_args]. *)
Definition _parse_and_check_args (parser : PropertyArgumentParser.Parser)
           (w : World) : World * result unit :=
  match _check_required_args w with
  | (w, Raise e) => (w, Raise e)
  | (w, Ok _) =>
      match _add_arguments parser (descriptors w) with
      | Raise e => (w, Raise e)
      | Ok parser =>
          match _parse_known_args parser w with
          | (w, Raise e) => (w, Raise e)
          | (w, Ok parsed_args) =>
              (set_descriptors w
                 (_assign_parsed_values (descriptors w) parsed_args),
               Ok tt)
          end
      end
  end.

(** [Arguments._parse_arguments]. *)
Definition _parse_arguments (w : World) : World * result (list Argument) :=
  let parser := PropertyArgumentParser.__init__ HelpFormatter in
  match _parse_and_check_args parser w with
  | (w, Raise e) => (w, Raise e)
  | (w, Ok _) => (w, Ok (descriptors w))
  end.

(** The loop of [_set_optional_args]: one [instance.__setattr__] per
    descriptor, in order. *)
Fixpoint set_each (instance : Instance) (optional_args : list Argument)
         (w : World) : World * result Instance :=
  match optional_args with
  | [] => (w, Ok instance)
  | optional_arg :: rest =>
      match name optional_arg with
      | None =>
          (w, Raise (TypeError "attribute name must be string"))
      | Some attribute =>
          let w := emit w (SetAttr attribute (value optional_arg)) in
          match setattr cls instance attribute (value optional_arg) with
          | Raise e => (w, Raise e)
          | Ok instance' => set_each instance' rest w
          end
      end
  end.

(** [Arguments._set_optional_args]. *)
Definition _set_optional_args (instance : Instance)
           (parsed_args : list Argument) (w : World)
  : World * result Instance :=
  let optional_args := filter (fun arg => is_some (fset arg)) parsed_args in
  set_each instance optional_args w.

(** [Arguments._create_instance]. *)
Definition _create_instance (parsed_args : list Argument) (w : World)
  : World * result Instance :=
  let initialization_params := _get_initialization_params parsed_args in
  match keywords initialization_params with
  | Raise e => (w, Raise e)
  | Ok kwargs =>
      let w := emit w (Construct kwargs) in
      match construct cls kwargs with
      | Raise e => (w, Raise e)
      | Ok instance => _set_optional_args instance parsed_args w
      end
  end.

(** [Arguments.parse]. *)
Definition parse (w : World) : World * result Instance :=
  match _parse_arguments w with
  | (w, Raise e) => (w, Raise e)
  | (w, Ok parsed_args) => _create_instance parsed_args w
  end.

(** [Arguments.get_help]. *)
Definition get_help (formatter : Formatter) (w : World)
  : World * result string :=
  let parser := PropertyArgumentParser.__init__ formatter in
  let property_args := _get_arguments_without_class_reference w in
  match _add_arguments parser property_args with
  | Raise e => (w, Raise e)
  | Ok parser => (w, PropertyArgumentParser.format_help lib parser)
  end.

End Orchestrator.

End Arguments.

(** ** Notions used to state the properties *)

(** The type a read accessor is declared with, as [_get_type] sees it: the
    override, else the annotation, else [str]. *)
Definition declared_type (self : Argument.Argument) (f : PyFunction)
  : PyType :=
  match Argument.overridden_type self with
  | Some t => t
  | None => Argument._get_type_from_annotation f
  end.

(** A descriptor with its two reconciliation flags replaced. *)
Definition flagged (d : Argument.Argument) (initializer required : bool)
  : Argument.Argument :=
  Argument.set_required (Argument.set_has_initializer d initializer) required.

(** The two reconciliation flags of a descriptor. *)
Definition flags (d : Argument.Argument) : bool * bool :=
  (Argument.required d, Argument.has_initializer d).

(** Some parameter of the list has the descriptor's name. *)
Definition matches_parameter (params : list InitializerParameter)
           (d : Argument.Argument) : bool :=
  existsb (fun p => Arguments.name_is d (param_name p)) params.

(** A descriptor that reconciliation leaves without a way to be set: no
    write accessor, a default value, and a same-named parameter. *)
Definition unsettable (params : list InitializerParameter)
           (d : Argument.Argument) : bool :=
  Arguments.is_none (Argument.fset d)
  && negb (Arguments.is_none (Argument.default d))
  && matches_parameter params d.

(** The configuration error raised for a descriptor. *)
Definition configuration_error (d : Argument.Argument) : Raised :=
  AttributeError
    (Arguments.format_name (Argument.name d)
     ++ " Argument must have a setter or "
     ++ "a non-default initialization arg defined in its __init__ method.").

(** What a reconciliation that returns has done to one descriptor. *)
Definition reconciled (params : list InitializerParameter)
           (d : Argument.Argument) : Argument.Argument :=
  if matches_parameter params d
  then flagged d true (Arguments.is_none (Argument.default d))
  else d.

(* ================================================================== *)
(** * Part I, continued: the helper modules *)
(* ================================================================== *)

(** ** _asserts.py *)
Module Asserts.

(** [assert_is_not_none(instance, error)]. *)
Definition assert_is_not_none {A : Type} (instance : option A)
           (error : option string) : result unit :=
  match instance with
  | None =>
      let error :=
        match error with
        | None => "None cannot be None."
        | Some text => text
        end in
      Raise (TypeError error)
  | Some _ => Ok tt
  end.

(** [assert_has_length(iterable)]: [any(iterable)] looks at the truth
    value of the items, which [truthy] gives. *)
Definition assert_has_length {T : Type} (truthy : T -> bool)
           (iterable : list T) : result unit :=
  let has_any := existsb truthy iterable in
  if negb has_any
  then Raise (ValueError "The iterable must have at least 1 item.")
  else Ok tt.

End Asserts.

(** ** _iterables.py, the remaining functions *)
Module IterablesRest.

(** [text.split(delimiter)] for a separator that is not empty: the text
    is cut at each occurrence of the separator, scanning from the left.
    [skip] counts the characters of an occurrence still to pass over and
    [current] is the piece read so far. *)
Fixpoint split_from (sep text : string) (skip : nat) (current : string)
  : list string :=
  match text with
  | EmptyString => [current]
  | String c rest =>
      match skip with
      | S skip' => split_from sep rest skip' current
      | O =>
          if prefix sep text
          then current :: split_from sep rest (String.length sep - 1)
                                     EmptyString
          else split_from sep rest O (current ++ String c EmptyString)
      end
  end.

(** [str.split(sep)]: an empty separator is a [ValueError]. *)
Definition str_split (text sep : string) : result (list string) :=
  match sep with
  | EmptyString => Raise (ValueError "empty separator")
  | _ => Ok (split_from sep text O EmptyString)
  end.

(** [split(text, delimiter)]: the pieces that are not empty, each one
    stripped. *)
Definition split (text delimiter : string) : result (list string) :=
  split_items <- str_split text delimiter ;;
  let parsed :=
    map strip (filter (fun item => negb (item =? "")) split_items) in
  Ok parsed.

(** [get_first_item(iterable, condition)]. *)
Fixpoint get_first_item {T : Type} (iterable : list T)
         (condition : T -> bool) : result T :=
  match iterable with
  | [] => Raise StopIteration
  | item :: rest =>
      if condition item then Ok item else get_first_item rest condition
  end.

(** [has_any(iterable)]. *)
Definition has_any {T : Type} (truthy : T -> bool)
           (iterable : option (list T)) : bool :=
  match iterable with
  | None => false
  | Some items => existsb truthy items
  end.

Section Sorting.

Variable T : Type.
Variable truthy : T -> bool.
Variable key : T -> nat.

(** [y] has to stay before [x] in the sorted list: its key is strictly
    smaller, or strictly greater when the order is reversed. *)
Definition goes_first (reverse : bool) (y x : T) : bool :=
  if reverse then (key x <? key y)%nat else (key y <? key x)%nat.

(** [array.sort(key=key, reverse=reverse)].  The sort is stable, also
    when reversed, which determines its result: each item is put before
    the first one it does not have to follow. *)
Fixpoint insert_item (reverse : bool) (x : T) (sorted : list T) : list T :=
  match sorted with
  | [] => [x]
  | y :: rest =>
      if goes_first reverse y x
      then y :: insert_item reverse x rest
      else x :: y :: rest
  end.

Definition list_sort (reverse : bool) (array : list T) : list T :=
  fold_right (insert_item reverse) [] array.

(** [get_first_sorted_value(array, key, reverse)]: the array is sorted in
    place, so the array after the call is returned with the outcome.
    [assert_is_not_none] rejects [None] and [assert_has_length] rejects
    the empty list, whose [any] is [False]; on the other lists
    [assert_has_length] decides.  [array[0]] is thus read on a list that
    is not empty, and [first] only makes [hd] total. *)
Definition get_first_sorted_value (array : option (list T)) (reverse : bool)
  : option (list T) * result T :=
  match array with
  | None => (None, Raise (TypeError "None cannot be None."))
  | Some [] =>
      (Some [], Raise (ValueError "The iterable must have at least 1 item."))
  | Some (first :: rest) =>
      match Asserts.assert_has_length truthy (first :: rest) with
      | Raise e => (array, Raise e)
      | Ok _ =>
          let sorted := list_sort reverse (first :: rest) in
          (Some sorted, Ok (hd first sorted))
      end
  end.

(** [get_highest_value(array, key)]. *)
Definition get_highest_value (array : option (list T))
  : option (list T) * result T :=
  get_first_sorted_value array true.

(** [get_lowest_value(array, key)]. *)
Definition get_lowest_value (array : option (list T))
  : option (list T) * result T :=
  get_first_sorted_value array false.

End Sorting.

(** The loop of [aggregate_while] over [items[index:]]. *)
Fixpoint aggregate_loop {T : Type} (condition : list T -> T -> bool)
         (rest aggregate : list T) (index : nat) : list T * nat :=
  match rest with
  | [] => (aggregate, index)
  | item :: rest' =>
      if condition aggregate item
      then aggregate_loop condition rest' (aggregate ++ [item])%list (S index)
      else (aggregate, index)
  end.

(** [aggregate_while(items, start, condition)], for a start index that
    is not negative. *)
Definition aggregate_while {T : Type} (items : list T) (start : nat)
           (condition : list T -> T -> bool) : list T * nat :=
  aggregate_loop condition (skipn start items) [] start.

(** [where(selector, items)], collected into a list. *)
Definition where_ {T : Type} (selector : T -> bool) (items : list T)
  : list T := filter selector items.

End IterablesRest.

(** ** _inspection.py, the naming conventions *)
Module InspectionNames.

(** The values of the enumerations [AccessModifier] and
    [ObjectFeatureTokens]. *)
Definition AccessModifier_protected : string := "_".
Definition AccessModifier_private : string := "__".
Definition AccessModifier_public : string := "".
Definition ObjectFeatureTokens_start : string := "__".
Definition ObjectFeatureTokens_end : string := "__".

(** [name.startswith(token)] and [name.endswith(token)]. *)
Definition startswith (name token : string) : bool := prefix token name.

Definition endswith (name token : string) : bool :=
  let n := String.length name in
  let m := String.length token in
  (m <=? n)%nat && (substring (n - m) m name =? token).

(** [is_protected(name)]. *)
Definition is_protected (name : string) : bool :=
  startswith name AccessModifier_protected.

(** [is_object_feature(name)]. *)
Definition is_object_feature (name : string) : bool :=
  startswith name ObjectFeatureTokens_start
  && endswith name ObjectFeatureTokens_end.

(** [is_private(name)]. *)
Definition is_private (name : string) : bool :=
  negb (is_object_feature name) && startswith name AccessModifier_private.

(** [is_public(name)]. *)
Definition is_public (name : string) : bool :=
  negb (is_private name) && negb (is_protected name).

(** [get_fields(item)]: [vars(item)], a [TypeError] for an object
    without [__dict__] ([None] here). *)
Definition get_fields {V : Type} (item : option (list (string * V)))
  : result (list (string * V)) :=
  match item with
  | None => Raise (TypeError "object must implement the __dict__ attribute.")
  | Some fields => Ok fields
  end.

(** [get_public_fields(item)]. *)
Definition get_public_fields {V : Type} (item : option (list (string * V)))
  : result (list (string * V)) :=
  fields <- get_fields item ;;
  Ok (filter (fun entry => is_public (fst entry)) fields).

End InspectionNames.

(** ** Notions used to state the further properties *)

(** The number of errors in a chain: the error and its causes. *)
Fixpoint chain_length (e : PyException) : nat :=
  match e with
  | Foreign _ => 1
  | Domain _ _ None => 1
  | Domain _ _ (Some inner) => S (chain_length inner)
  end.

(** Each error of the list is the cause of the next one. *)
Fixpoint caused_in_order (errors : list PyException) : Prop :=
  match errors with
  | cause :: ((error :: _) as rest) =>
      Exceptions._get_inner_exception error = Some cause
      /\ caused_in_order rest
  | _ => True
  end.

(** The character occurs in the string. *)
Fixpoint contains_char (c : ascii) (s : string) : bool :=
  match s with
  | EmptyString => false
  | String c' rest => Ascii.eqb c' c || contains_char c rest
  end.

(** The event is an attribute assignment. *)
Definition is_assignment (ev : Event) : bool :=
  match ev with
  | SetAttr _ _ => true
  | _ => false
  end.

(** [a] may stand before [b] in a list sorted by [key]: its key is not
    greater, or not smaller when the order is reversed. *)
Definition in_order {T : Type} (key : T -> nat) (reverse : bool) (a b : T)
  : Prop :=
  if reverse then key b <= key a else key a <= key b.

(** The string without its first [n] characters. *)
Fixpoint drop_chars (n : nat) (s : string) : string :=
  match n, s with
  | O, _ => s
  | S n', String _ rest => drop_chars n' rest
  | S _, EmptyString => EmptyString
  end.

(** ** Concrete inputs used by the examples below *)

(** A line separator: the line feed. *)
Definition LF : string := String (ascii_of_nat 10) EmptyString.

(** An error chain whose middle error has an empty message. *)
Definition chain_C : PyException := Foreign "c".
Definition chain_B : PyException := Exceptions.ExceptionBase "" (Some chain_C).
Definition chain_A : PyException := Exceptions.ExceptionBase "a" (Some chain_B).

(** The enumeration RED, GREEN, BLUE. *)
Definition Color : StrEnum.EnumClass :=
  StrEnum.mkEnum "Color"
    [("RED", StrEnum.mkMember "RED" "red");
     ("GREEN", StrEnum.mkMember "GREEN" "green");
     ("BLUE", StrEnum.mkMember "BLUE" "blue")].

(** A descriptor declared as [Argument()], and read accessors to attach:
    [tags] is annotated [-> List[str]], [verbose] is annotated [-> bool],
    [name] is annotated [-> str]; [undocumented] has no docstring. *)
Definition plain_argument : Argument.Argument :=
  Argument.__init__ None None None None None None None false None.

Definition tags_getter : PyFunction :=
  mkFunction "tags" (Some "Tags to attach.") (Some (TTypingList [TStr])).

Definition verbose_getter : PyFunction :=
  mkFunction "verbose" (Some "Print more.") (Some TBool).

Definition name_getter : PyFunction :=
  mkFunction "name" (Some "  The name to greet. ") (Some TStr).

Definition undocumented_getter : PyFunction :=
  mkFunction "name" None (Some TStr).

(** A small flag-parsing library to run the orchestrator with.  It knows
    the ['store'] action, complete flags written [--flag value] or
    [--flag=value], the conversions to [str], [int] and [bool], and the
    help request; anything it does not recognize is left in the extras. *)
Module SimpleArgparse.

Definition known_action (a : option string) : bool :=
  match a with
  | None => true
  | Some text => text =? "store"
  end.

Definition add_argument (earlier : list FlagRegistration)
           (r : FlagRegistration) : result unit :=
  if negb (known_action (reg_action r)) then
    Raise (ValueError ("unknown action "
                       ++ match reg_action r with
                          | Some text => text
                          | None => "None"
                          end))
  else if existsb (fun e => reg_flag e =? reg_flag r) earlier then
    Raise (ArgumentError
             ("argument " ++ reg_flag r ++ ": conflicting option string: "
              ++ reg_flag r))
  else Ok tt.

(** The destination of a flag: the flag without its two dashes. *)
Definition dest (r : FlagRegistration) : string :=
  substring 2 (String.length (reg_flag r) - 2) (reg_flag r).

Fixpoint inline_value (tok : string) : option string :=
  match tok with
  | EmptyString => None
  | String c rest =>
      if Ascii.eqb c "="%char then Some rest else inline_value rest
  end.

Definition is_digit (c : ascii) : bool :=
  let n := nat_of_ascii c in ((48 <=? n) && (n <=? 57))%nat.

Fixpoint digits_value (acc : nat) (text : string) : option nat :=
  match text with
  | EmptyString => Some acc
  | String c rest =>
      if is_digit c
      then digits_value (10 * acc + (nat_of_ascii c - 48)) rest
      else None
  end.

Definition convert (t : option PyType) (text : string) : option PyValue :=
  match t with
  | None | Some TStr => Some (VStr text)
  | Some TInt =>
      match text with
      | EmptyString => None
      | _ => option_map VInt (digits_value 0 text)
      end
  | Some TBool => Some (VBool (negb (text =? "")))
  | Some _ => None
  end.

Fixpoint find_registration (opt : string) (regs : list FlagRegistration)
  : option FlagRegistration :=
  match regs with
  | [] => None
  | r :: rest =>
      if reg_flag r =? opt then Some r else find_registration opt rest
  end.

Fixpoint namespace_set (k : string) (v : option PyValue) (ns : Namespace)
  : Namespace :=
  match ns with
  | [] => [(k, v)]
  | (k', v') :: rest =>
      if k' =? k then (k', v) :: rest else (k', v') :: namespace_set k v rest
  end.

Definition missing (regs : list FlagRegistration) (seen : list string)
  : list FlagRegistration :=
  filter (fun r => reg_required r
                   && negb (existsb (fun s => s =? reg_flag r) seen))
         regs.

Definition finish (regs : list FlagRegistration) (ns : Namespace)
           (seen extras : list string) : ParseOutcome :=
  match missing regs seen with
  | [] => Parsed ns extras
  | absent =>
      CallsError ("the following arguments are required: "
                  ++ String.concat ", " (map reg_flag absent))
  end.

Definition is_help (tok : string) : bool :=
  (tok =? "-h") || (tok =? "--help").

Fixpoint scan (regs : list FlagRegistration) (tokens : list string)
         (ns : Namespace) (seen extras : list string) : ParseOutcome :=
  match tokens with
  | [] => finish regs ns seen extras
  | tok :: rest =>
      if is_help tok then Raises (SystemExit 0)
      else
        match find_registration (option_part tok) regs with
        | None => scan regs rest ns seen (extras ++ [tok])
        | Some r =>
            match inline_value tok with
            | Some text =>
                match convert (reg_type r) text with
                | Some v =>
                    scan regs rest (namespace_set (dest r) (Some v) ns)
                         (reg_flag r :: seen) extras
                | None =>
                    CallsError ("argument " ++ reg_flag r
                                ++ ": invalid value: '" ++ text ++ "'")
                end
            | None =>
                match rest with
                | [] =>
                    CallsError ("argument " ++ reg_flag r
                                ++ ": expected one argument")
                | text :: rest' =>
                    if prefix "-" text then
                      CallsError ("argument " ++ reg_flag r
                                  ++ ": expected one argument")
                    else
                      match convert (reg_type r) text with
                      | Some v =>
                          scan regs rest'
                               (namespace_set (dest r) (Some v) ns)
                               (reg_flag r :: seen) extras
                      | None =>
                          CallsError ("argument " ++ reg_flag r
                                      ++ ": invalid value: '" ++ text
                                      ++ "'")
                      end
                end
            end
        end
  end.

Definition parse_known_args (regs : list FlagRegistration)
           (input : list string) : ParseOutcome :=
  let defaults := map (fun r => (dest r, reg_default r)) regs in
  scan regs input defaults [] [].

Definition format_help (formatter : Formatter)
           (regs : list FlagRegistration) : result string :=
  Ok ("usage: [-h] "
      ++ String.concat " "
           (map (fun r =>
                   reg_flag r ++ " "
                   ++ match reg_metavar r with
                      | Some text => text
                      | None => dest r
                      end) regs)).

Definition library : FlagLibrary :=
  mkLibrary add_argument parse_known_args format_help.

End SimpleArgparse.

(** Descriptors: [name] has only a read accessor; [greeting] has only a
    read accessor and the default ['Hello']; [title] has a write accessor
    and the default ['Dr']. *)
Definition name_argument : Argument.Argument :=
  fst (Argument.getter plain_argument name_getter).

Definition greeting_getter : PyFunction :=
  mkFunction "greeting" (Some "The greeting to use.") (Some TStr).

Definition greeting_argument : Argument.Argument :=
  fst (Argument.getter
         (Argument.__init__ None None (Some (VStr "Hello")) None None None
                            None false None)
         greeting_getter).

Definition title_getter : PyFunction :=
  mkFunction "title" (Some "The title to use.") (Some TStr).

Definition title_setter : PyFunction := mkFunction "title" None None.

Definition title_argument : Argument.Argument :=
  Argument.setter
    (fst (Argument.getter
            (Argument.__init__ None None (Some (VStr "Dr")) None None None
                               None false None)
            title_getter))
    title_setter.

(** Instances keep what they are given. *)
Definition write_attribute (instance : Instance) (attribute : string)
           (v : option PyValue) : result Instance :=
  Ok (SimpleArgparse.namespace_set attribute v instance).

(** [class Greeter(Arguments)] with [def __init__(self, name)]. *)
Definition Greeter : ClassDef :=
  mkClass [mkParameter "self" false; mkParameter "name" false]
          (fun kwargs =>
             match kwargs with
             | [("name", v)] => Ok [("name", v)]
             | _ => Raise (TypeError "__init__() got unexpected arguments")
             end)
          write_attribute.

(** [class Salute(Arguments)] with [def __init__(self, greeting)]. *)
Definition Salute : ClassDef :=
  mkClass [mkParameter "self" false; mkParameter "greeting" false]
          (fun kwargs =>
             match kwargs with
             | [("greeting", v)] => Ok [("greeting", v)]
             | _ => Raise (TypeError "__init__() got unexpected arguments")
             end)
          write_attribute.

(** [class Orphan(Arguments)] with [def __init__(self)]. *)
Definition Orphan : ClassDef :=
  mkClass [mkParameter "self" false]
          (fun kwargs =>
             match kwargs with
             | [] => Ok []
             | _ => Raise (TypeError "__init__() got unexpected arguments")
             end)
          write_attribute.

(** The state of the process before the first call, for an input. *)
Definition greeter_world (input : list string) : World :=
  mkWorld [name_argument; title_argument] input [].

Definition salute_world (input : list string) : World :=
  mkWorld [greeting_argument; title_argument] input [].

Definition orphan_world (input : list string) : World :=
  mkWorld [name_argument] input [].

(** A parser on which the required flag [--name] has been registered. *)
Definition name_parser : PropertyArgumentParser.Parser :=
  PropertyArgumentParser.mkParser HelpFormatter
    [mkRegistration "--name" (Some "store") None (Some TStr) (Some "str")
                    true (Some "The name to greet.")].

(** ** Further concrete inputs *)

(** Integers: [0] is false, the others are true; [tens] is a key on which
    different integers can agree. *)
Definition nonzero (n : nat) : bool := negb (n =? 0)%nat.
Definition tens (n : nat) : nat := n / 10.
Definition some_numbers : list nat := [52; 31; 0; 35; 58].

(** [class Titled(Arguments)] with [def __init__(self, title)]: the
    descriptor [title] is bound to the constructor and has a write
    accessor. *)
Definition Titled : ClassDef :=
  mkClass [mkParameter "self" false; mkParameter "title" false]
          (fun kwargs =>
             match kwargs with
             | [("title", v)] => Ok [("title", v)]
             | _ => Raise (TypeError "__init__() got unexpected arguments")
             end)
          write_attribute.

Definition titled_world (input : list string) : World :=
  mkWorld [title_argument] input [].

(** A read accessor annotated with the plain [list]. *)
Definition items_getter : PyFunction :=
  mkFunction "items" (Some "The items.") (Some TList).

(* ================================================================== *)
(** * Part II: properties *)
(* ================================================================== *)

(** ** Error chains *)

Section ErrorChain.

Variable linesep : string.

Lemma unwrap_leaf (depth : nat) (e : PyException) :
  Exceptions._get_inner_exception e = None ->
  Iterables.unwrap (S depth) (Some e) Exceptions._get_inner_exception
  = Ok [e].
Proof.
  intros Hleaf. simpl. rewrite Hleaf.
  destruct depth; reflexivity.
Qed.

Lemma unwrap_step (depth : nat) (e child : PyException)
      (children : list PyException) :
  Exceptions._get_inner_exception e = Some child ->
  Iterables.unwrap depth (Some child) Exceptions._get_inner_exception
  = Ok children ->
  Iterables.unwrap (S depth) (Some e) Exceptions._get_inner_exception
  = Ok (children ++ [e])%list.
Proof.
  intros Hinner Hchild. simpl. rewrite Hinner, Hchild. reflexivity.
Qed.

(** C7 (amended): for an error A caused by B caused by C, C without a
    cause, [unwrap()] returns [C, B, A], the deepest cause first and the
    error itself last, and [flatten()] joins, in that order and with the
    line separator, the string forms that are not empty. *)
Theorem unwrap_flatten_chain
        (depth : nat) (ca cb : DomainClass) (ma mb : string)
        (C : PyException) :
  3 <= depth ->
  Exceptions._get_inner_exception C = None ->
  let B := Domain cb mb (Some C) in
  let A := Domain ca ma (Some B) in
  Exceptions.unwrap depth A = Ok [C; B; A]
  /\ Exceptions.flatten linesep depth A
     = Ok (String.concat linesep
             (filter (fun text => negb (text =? ""))
                     [Exceptions.str C; Exceptions.str B;
                      Exceptions.str A])).
Proof.
  intros Hdepth Hleaf B A.
  assert (Hunwrap : Exceptions.unwrap depth A = Ok [C; B; A]).
  { destruct depth as [|[|[|d]]]; try lia.
    unfold Exceptions.unwrap.
    apply (unwrap_step _ A B [C; B]); [reflexivity|].
    apply (unwrap_step _ B C [C]); [reflexivity|].
    apply unwrap_leaf; exact Hleaf. }
  split; [exact Hunwrap|].
  unfold Exceptions.flatten, Exceptions._flatten.
  rewrite Hunwrap. reflexivity.
Qed.

End ErrorChain.

Lemma unwrap_flatten_chain_witness :
  3 <= 5
  /\ Exceptions._get_inner_exception chain_C = None
  /\ Exceptions.unwrap 5 chain_A = Ok [chain_C; chain_B; chain_A]
  /\ Exceptions.flatten LF 5 chain_A
     = Ok (String.concat LF
             (filter (fun text => negb (text =? ""))
                     [Exceptions.str chain_C; Exceptions.str chain_B;
                      Exceptions.str chain_A])).
Proof.
  split; [lia|]. split; [reflexivity|].
  apply (unwrap_flatten_chain LF 5 CExceptionBase CExceptionBase "a" ""
                              chain_C); [lia | reflexivity].
Defined.

(** Without the restriction to non-empty string forms the statement does
    not hold: with an empty message in the chain, [flatten()] is not the
    join of the string form of every error. *)
Lemma flatten_skips_empty_text :
  Exceptions.unwrap 5 chain_A = Ok [chain_C; chain_B; chain_A]
  /\ Exceptions.flatten LF 5 chain_A
     <> Ok (String.concat LF
              (map Exceptions.str [chain_C; chain_B; chain_A])).
Proof.
  split; [reflexivity|].
  vm_compute. discriminate.
Qed.

(** ** Enumeration validation *)

Lemma has_member_in (cls : StrEnum.EnumClass) (member : string) :
  StrEnum.has_member cls member = true <-> In member (StrEnum.keys cls).
Proof.
  unfold StrEnum.has_member. rewrite existsb_exists. split.
  - intros [k [Hin Heq]]. apply String.eqb_eq in Heq. now subst.
  - intros Hin. exists member. split; [exact Hin | apply String.eqb_refl].
Qed.

Lemma lookup_in (name : string) (members : list (string * StrEnum.Member)) :
  In name (map fst members) ->
  exists item, StrEnum.lookup name members = Some item
               /\ In (name, item) members.
Proof.
  induction members as [|[k m] rest IH]; simpl; [tauto|].
  intros Hin. destruct (String.eqb_spec k name) as [Heq|Hne].
  - subst. exists m. split; [reflexivity | now left].
  - destruct Hin as [Heq|Hin]; [contradiction|].
    destruct (IH Hin) as [item [Hl Hi]].
    exists item. split; [exact Hl | now right].
Qed.

Lemma filter_nonempty_id (items : list string) :
  Forall (fun item => item <> "") items ->
  filter (fun item => negb (item =? "")) items = items.
Proof.
  induction 1 as [|item rest Hne _ IH]; simpl; [reflexivity|].
  destruct (String.eqb_spec item "") as [Heq|_]; [contradiction|].
  simpl. now rewrite IH.
Qed.

(** C8: the validator returns the member declared under the token when
    the token is a declared name; otherwise it fails with a [KeyError]
    whose message lists every member name, in declaration order, joined
    with a comma and a space.  Member names are identifiers, hence not
    empty. *)
Theorem from_name_validates (cls : StrEnum.EnumClass) (token : string) :
  Forall (fun k => k <> "") (StrEnum.keys cls) ->
  (In token (StrEnum.keys cls) ->
   exists item,
     StrEnum.from_name cls token = Ok item
     /\ StrEnum.lookup token (StrEnum.cls_members cls) = Some item
     /\ In (token, item) (StrEnum.cls_members cls))
  /\ (~ In token (StrEnum.keys cls) ->
      StrEnum.from_name cls token
      = Raise (KeyError
                 ("The member '" ++ token ++ "' is not a valid value for '"
                  ++ StrEnum.cls_name cls ++ "', expected members are: '"
                  ++ String.concat ", " (StrEnum.keys cls) ++ "'"))).
Proof.
  intros Hnames. split.
  - intros Hin.
    destruct (lookup_in token (StrEnum.cls_members cls) Hin)
      as [item [Hl Hi]].
    exists item. repeat split; try assumption.
    unfold StrEnum.from_name, StrEnum.assert_member_is_defined.
    apply has_member_in in Hin. rewrite Hin. simpl.
    unfold StrEnum.getitem. rewrite Hl. reflexivity.
  - intros Hnotin.
    unfold StrEnum.from_name, StrEnum.assert_member_is_defined.
    destruct (StrEnum.has_member cls token) eqn:Hm.
    + apply has_member_in in Hm. contradiction.
    + simpl. unfold Iterables.flatten.
      rewrite (filter_nonempty_id _ Hnames). reflexivity.
Qed.

Lemma from_name_validates_witness :
  Forall (fun k => k <> "") (StrEnum.keys Color)
  /\ (exists item,
        StrEnum.from_name Color "GREEN" = Ok item
        /\ StrEnum.lookup "GREEN" (StrEnum.cls_members Color) = Some item
        /\ In ("GREEN", item) (StrEnum.cls_members Color))
  /\ StrEnum.from_name Color "YELLOW"
     = Raise (KeyError
                ("The member 'YELLOW' is not a valid value for 'Color', "
                 ++ "expected members are: 'RED, GREEN, BLUE'")).
Proof.
  assert (Hnames : Forall (fun k => k <> "") (StrEnum.keys Color)).
  { repeat constructor; discriminate. }
  split; [exact Hnames|]. split.
  - apply (proj1 (from_name_validates Color "GREEN" Hnames)).
    simpl. tauto.
  - apply (proj2 (from_name_validates Color "YELLOW" Hnames)).
    simpl. intros [H|[H|[H|[]]]]; discriminate.
Defined.

(** ** Attaching the read accessor *)

Section Attach.

Import Argument.

Variable self : Argument.
Variable f : PyFunction.

Lemma _get_type_after_attach :
  _get_type (set_name (PropertyLike_getter self f) (Some (fn_name f))) f
  = _resolve_generic_type (declared_type self f).
Proof. reflexivity. Qed.

(** What [getter] leaves in the descriptor when it returns. *)
Lemma getter_ok_inv :
  snd (getter self f) = Ok tt ->
  exists resolved stripped,
    _resolve_generic_type (declared_type self f) = Ok resolved
    /\ _get_doc self f = Ok stripped
    /\ type (fst (getter self f)) = Some resolved
    /\ action (fst (getter self f)) = Some (_get_action_type resolved)
    /\ name (fst (getter self f)) = Some (fn_name f).
Proof.
  unfold getter. rewrite _get_type_after_attach.
  destruct (_resolve_generic_type (declared_type self f)) as [resolved|e];
    [|discriminate].
  match goal with
  | |- context [_get_doc ?s f] =>
      change (_get_doc s f) with (_get_doc self f)
  end.
  destruct (_get_doc self f) as [stripped|e]; [|discriminate].
  intros _. exists resolved, stripped. repeat split; reflexivity.
Qed.

(** The action is derived from the resolved type: for a declared
    [List[T]] that is the element type [T], not the list. *)
Lemma getter_action_of_list (T : PyType) (rest : list PyType) :
  (declared_type self f) = TTypingList (T :: rest) ->
  snd (getter self f) = Ok tt ->
  action (fst (getter self f)) = Some (_get_action_type T).
Proof.
  intros Hdecl Hok.
  destruct (getter_ok_inv Hok) as [resolved [stripped [Hres [_ [_ [Hact _]]]]]].
  rewrite Hdecl in Hres. simpl in Hres. injection Hres as <-.
  exact Hact.
Qed.

Lemma getter_undocumented :
  help self = None ->
  fn_doc f = None ->
  (exists e, snd (getter self f) = Raise e)
  /\ (forall resolved,
        _resolve_generic_type (declared_type self f) = Ok resolved ->
        snd (getter self f)
        = Raise (AttributeError
                   "'NoneType' object has no attribute 'strip'")).
Proof.
  intros Hhelp Hdoc.
  assert (Hget : _get_doc self f
                 = Raise (AttributeError
                            "'NoneType' object has no attribute 'strip'")).
  { unfold _get_doc. rewrite Hhelp, Hdoc. reflexivity. }
  assert (Hstep : forall resolved,
             _resolve_generic_type (declared_type self f) = Ok resolved ->
             snd (getter self f)
             = Raise (AttributeError
                        "'NoneType' object has no attribute 'strip'")).
  { intros resolved Hres. unfold getter.
    rewrite _get_type_after_attach, Hres.
    match goal with
    | |- context [_get_doc ?s f] =>
        change (_get_doc s f) with (_get_doc self f)
    end.
    rewrite Hget. reflexivity. }
  split; [|exact Hstep].
  destruct (_resolve_generic_type (declared_type self f)) as [resolved|e] eqn:Hres.
  - eexists. apply (Hstep resolved). reflexivity.
  - exists e. unfold getter. rewrite _get_type_after_attach, Hres.
    reflexivity.
Qed.

(** Attachment that succeeds had a docstring or a help override. *)
Lemma getter_ok_documented :
  snd (getter self f) = Ok tt ->
  fn_doc f <> None \/ help self <> None.
Proof.
  intros Hok.
  destruct (fn_doc f) eqn:Hdoc; [left; discriminate|].
  destruct (help self) eqn:Hhelp; [right; discriminate|].
  destruct (getter_undocumented Hhelp Hdoc) as [[e He] _].
  rewrite He in Hok. discriminate.
Qed.

(** C10: with no help override and no docstring on the accessor,
    attaching the accessor fails with an error and does not succeed: the
    help derivation calls [strip()] on [None] (whenever the type has
    been resolved).  So attachment succeeds only when a docstring or a
    help override is present. *)
Theorem getter_needs_documentation :
  help self = None ->
  fn_doc f = None ->
  (exists e, snd (getter self f) = Raise e)
  /\ (forall resolved,
        _resolve_generic_type (declared_type self f) = Ok resolved ->
        snd (getter self f)
        = Raise (AttributeError
                   "'NoneType' object has no attribute 'strip'"))
  /\ snd (getter self f) <> Ok tt.
Proof.
  intros Hhelp Hdoc.
  destruct (getter_undocumented Hhelp Hdoc) as [[e He] Hstrip].
  split; [now exists e|]. split; [exact Hstrip|].
  rewrite He. discriminate.
Qed.

End Attach.

Lemma getter_needs_documentation_witness :
  Argument.help plain_argument = None
  /\ fn_doc undocumented_getter = None
  /\ (exists e,
        snd (Argument.getter plain_argument undocumented_getter) = Raise e)
  /\ (forall resolved,
        Argument._resolve_generic_type
          (declared_type plain_argument undocumented_getter) = Ok resolved ->
        snd (Argument.getter plain_argument undocumented_getter)
        = Raise (AttributeError
                   "'NoneType' object has no attribute 'strip'"))
  /\ snd (Argument.getter plain_argument undocumented_getter) <> Ok tt.
Proof.
  split; [reflexivity|]. split; [reflexivity|].
  apply (getter_needs_documentation plain_argument undocumented_getter);
    reflexivity.
Defined.

(** With a docstring the same attachment succeeds, and the help text is
    the stripped docstring. *)
Example getter_with_docstring :
  snd (Argument.getter plain_argument name_getter) = Ok tt
  /\ Argument.help (fst (Argument.getter plain_argument name_getter))
     = Some "The name to greet.".
Proof. split; reflexivity. Qed.

(** C1: a descriptor whose read accessor is annotated [-> List[str]] is
    finalized with the scalar action ['store'] and the type [str], not
    with the accumulate action; a [bool] annotation gives the switch
    action and a [str] annotation the scalar one. *)
Theorem getter_list_annotation_is_scalar :
  snd (Argument.getter plain_argument tags_getter) = Ok tt
  /\ declared_type plain_argument tags_getter = TTypingList [TStr]
  /\ Argument.type (fst (Argument.getter plain_argument tags_getter))
     = Some TStr
  /\ Argument.action (fst (Argument.getter plain_argument tags_getter))
     = Some "store"
  /\ Argument.action (fst (Argument.getter plain_argument verbose_getter))
     = Some "store_switch"
  /\ Argument.action (fst (Argument.getter plain_argument name_getter))
     = Some "store".
Proof. repeat split; reflexivity. Qed.

(** ** Reconciliation against the constructor parameters *)

Section Reconciliation.

Import Argument Arguments.

Lemma flagged_self (d : Argument) :
  flagged d (has_initializer d) (required d) = d.
Proof. destruct d; reflexivity. Qed.

Lemma flagged_flagged (d : Argument) (h r h' r' : bool) :
  flagged (flagged d h r) h' r' = flagged d h' r'.
Proof. reflexivity. Qed.

Lemma mark_arg_shape (params : list InitializerParameter) :
  forall d, exists h r,
    fst (_mark_required_arg d params) = flagged d h r.
Proof.
  induction params as [|p rest IH]; intros d; simpl.
  - exists (has_initializer d), (required d).
    symmetry; apply flagged_self.
  - destruct (name_is d (param_name p)); [|apply IH].
    unfold _set_required_arg.
    destruct (_assert_argument_can_be_set _) as [[]|e].
    + match goal with
      | |- context [_mark_required_arg ?d1 rest] =>
          destruct (IH d1) as [h [r Hd1]]
      end.
      exists h, r. rewrite Hd1. reflexivity.
    + eexists _, _. reflexivity.
Qed.

Lemma mark_arg_unmatched (params : list InitializerParameter)
      (d : Argument) :
  matches_parameter params d = false ->
  _mark_required_arg d params = (d, Ok tt).
Proof.
  unfold matches_parameter.
  induction params as [|p rest IH]; simpl; [reflexivity|].
  intros H. apply orb_false_iff in H as [Hp Hrest].
  rewrite Hp. apply IH, Hrest.
Qed.

Lemma mark_arg_flagged (params : list InitializerParameter) :
  forall d h r,
    matches_parameter params d = true ->
    _mark_required_arg (flagged d h r) params
    = _mark_required_arg d params.
Proof.
  unfold matches_parameter.
  induction params as [|p rest IH]; intros d h r; simpl;
    [discriminate|].
  change (name_is (flagged d h r) (param_name p))
    with (name_is d (param_name p)).
  destruct (name_is d (param_name p)); simpl; [reflexivity|].
  apply IH.
Qed.

Lemma mark_arg_idempotent (params : list InitializerParameter)
      (d : Argument) :
  _mark_required_arg (fst (_mark_required_arg d params)) params
  = _mark_required_arg d params.
Proof.
  destruct (matches_parameter params d) eqn:Hm.
  - destruct (mark_arg_shape params d) as [h [r Hshape]].
    rewrite Hshape at 1. apply mark_arg_flagged, Hm.
  - rewrite (mark_arg_unmatched _ _ Hm). simpl.
    apply mark_arg_unmatched, Hm.
Qed.

Lemma mark_args_idempotent (params : list InitializerParameter)
      (args : list Argument) :
  _mark_required_args (fst (_mark_required_args args params)) params
  = _mark_required_args args params.
Proof.
  induction args as [|d rest IH]; simpl; [reflexivity|].
  pose proof (mark_arg_idempotent params d) as Hd.
  destruct (_mark_required_arg d params) as [d' [[]|e]]; simpl in Hd.
  - destruct (_mark_required_args rest params) as [rest' r] eqn:Hrest.
    simpl in IH. simpl. rewrite Hd, IH. reflexivity.
  - simpl. rewrite Hd. reflexivity.
Qed.

(** C3: reconciling a second time against the same parameters gives the
    same descriptors and the same outcome as reconciling once; so the
    [required] and [has_initializer] flags of every descriptor are the
    same.  The same holds of the reconciliation step of [parse]. *)
Theorem reconciliation_idempotent (D : list Argument)
        (P : list InitializerParameter) :
  let once := _mark_required_args D P in
  let twice := _mark_required_args (fst once) P in
  twice = once
  /\ map flags (fst twice) = map flags (fst once)
  /\ forall (cls : ClassDef) (w : World),
      _check_required_args cls (fst (_check_required_args cls w))
      = _check_required_args cls w.
Proof.
  intros once twice.
  assert (H : twice = once) by apply mark_args_idempotent.
  split; [exact H|]. split; [now rewrite H|].
  intros cls w. unfold _check_required_args.
  pose proof (mark_args_idempotent
                (_get_required_initialization_params cls)
                (descriptors w)) as Hw.
  destruct (_mark_required_args (descriptors w)
              (_get_required_initialization_params cls)) as [args r].
  simpl in *. rewrite Hw. reflexivity.
Qed.

End Reconciliation.

Example greeter_parses :
  snd (Arguments.parse SimpleArgparse.library Greeter
         (greeter_world ["--name"; "foo"; "--bogus=1"; "--title"; "Prof"]))
  = Ok [("name", Some (VStr "foo")); ("title", Some (VStr "Prof"))].
Proof. reflexivity. Qed.

Example greeter_reconciled :
  map flags
      (descriptors (fst (Arguments._check_required_args Greeter
                           (greeter_world []))))
  = [(true, true); (false, false)].
Proof. reflexivity. Qed.

Section ReconciliationOutcome.

Import Argument Arguments.

Lemma name_is_true (d : Argument) (text : string) :
  name_is d text = true <-> name d = Some text.
Proof.
  unfold name_is. destruct (name d) as [n|].
  - rewrite String.eqb_eq. split; [now intros ->|now intros [= ->]].
  - split; discriminate.
Qed.

Lemma matches_parameter_true (ps : list InitializerParameter)
      (d : Argument) :
  matches_parameter ps d = true
  <-> exists p, In p ps /\ name d = Some (param_name p).
Proof.
  unfold matches_parameter. rewrite existsb_exists.
  split; intros [p [Hin Hp]]; exists p; split; try assumption;
    now apply name_is_true.
Qed.

Lemma mark_arg_ok (params : list InitializerParameter) :
  Forall (fun p => param_has_default p = false) params ->
  forall d d',
    _mark_required_arg d params = (d', Ok tt) -> d' = reconciled params d.
Proof.
  unfold reconciled, matches_parameter.
  induction 1 as [|p rest Hp _ IH]; intros d d'; simpl.
  - now intros [= <-].
  - destruct (name_is d (param_name p)); simpl; [|apply IH].
    unfold _set_required_arg, _has_required_initializer.
    rewrite Hp. simpl.
    destruct (_assert_argument_can_be_set _) as [[]|e]; [|discriminate].
    intros H. apply IH in H. rewrite H.
    destruct (existsb _ rest); reflexivity.
Qed.

Lemma mark_args_ok (params : list InitializerParameter) :
  Forall (fun p => param_has_default p = false) params ->
  forall D D',
    _mark_required_args D params = (D', Ok tt) ->
    D' = map (reconciled params) D.
Proof.
  intros Hparams.
  induction D as [|d rest IH]; intros D'; simpl.
  - now intros [= <-].
  - destruct (_mark_required_arg d params) as [d' [[]|e]] eqn:Hd;
      [|discriminate].
    destruct (_mark_required_args rest params) as [rest' r].
    intros [= <- ->].
    rewrite (mark_arg_ok _ Hparams _ _ Hd), (IH rest' eq_refl).
    reflexivity.
Qed.

(** The descriptors that cannot be set make the inner loop raise; the
    others pass it. *)
Lemma mark_arg_unsettable (params : list InitializerParameter) :
  Forall (fun p => param_has_default p = false) params ->
  forall d,
    unsettable params d = true ->
    snd (_mark_required_arg d params) = Raise (configuration_error d).
Proof.
  unfold unsettable, matches_parameter.
  induction 1 as [|p rest Hp _ IH]; intros d; simpl.
  - rewrite andb_false_r. discriminate.
  - intros H. apply andb_true_iff in H as [Hblocked Hm].
    apply andb_true_iff in Hblocked as [Hfset Hdefault].
    destruct (name_is d (param_name p)); simpl in *.
    + unfold _set_required_arg, _has_required_initializer,
        _assert_argument_can_be_set, is_some.
      rewrite Hp. simpl. rewrite Hfset.
      apply negb_true_iff in Hdefault. rewrite Hdefault. reflexivity.
    + apply IH. now rewrite Hfset, Hdefault, Hm.
Qed.

Lemma mark_arg_settable (params : list InitializerParameter) :
  Forall (fun p => param_has_default p = false) params ->
  forall d,
    unsettable params d = false ->
    snd (_mark_required_arg d params) = Ok tt.
Proof.
  unfold unsettable, matches_parameter.
  induction 1 as [|p rest Hp _ IH]; intros d; simpl;
    [reflexivity|].
  intros H.
  destruct (name_is d (param_name p)) eqn:Hn; simpl in *.
  - rewrite andb_true_r in H.
    unfold _set_required_arg, _has_required_initializer.
    rewrite Hp. simpl.
    assert (Hassert : _assert_argument_can_be_set
                        (set_required (set_has_initializer d true)
                                      (is_none (default d))) = Ok tt).
    { unfold _assert_argument_can_be_set, is_some. simpl.
      destruct (is_none (fset d)); simpl in *.
      - apply negb_false_iff in H. rewrite H. reflexivity.
      - reflexivity. }
    rewrite Hassert. apply IH. simpl.
    rewrite H. reflexivity.
  - apply IH, H.
Qed.

Lemma mark_args_first_unsettable (params : list InitializerParameter) :
  Forall (fun p => param_has_default p = false) params ->
  forall pre d post,
    Forall (fun x => unsettable params x = false) pre ->
    unsettable params d = true ->
    snd (_mark_required_args (pre ++ d :: post) params)
    = Raise (configuration_error d).
Proof.
  intros Hparams.
  induction pre as [|x pre IH]; intros d post Hpre Hd; simpl.
  - pose proof (mark_arg_unsettable _ Hparams d Hd) as H.
    destruct (_mark_required_arg d params) as [d' r]. simpl in H.
    subst r. reflexivity.
  - inversion Hpre as [|? ? Hx Hrest]; subst.
    pose proof (mark_arg_settable _ Hparams x Hx) as H.
    destruct (_mark_required_arg x params) as [x' r]. simpl in H.
    subst r.
    specialize (IH d post Hrest Hd).
    destruct (_mark_required_args (pre ++ d :: post) params) as [D' r].
    exact IH.
Qed.

Lemma first_unsettable (params : list InitializerParameter) :
  forall D,
    existsb (unsettable params) D = true ->
    exists pre d post,
      D = (pre ++ d :: post)%list
      /\ Forall (fun x => unsettable params x = false) pre
      /\ unsettable params d = true.
Proof.
  induction D as [|x rest IH]; simpl; [discriminate|].
  destruct (unsettable params x) eqn:Hx; simpl.
  - intros _. exists [], x, rest. repeat split; [constructor|exact Hx].
  - intros H. destruct (IH H) as [pre [d [post [-> [Hpre Hd]]]]].
    exists (x :: pre), d, post. repeat split; [|exact Hd].
    constructor; assumption.
Qed.

End ReconciliationOutcome.

Lemma required_params_have_no_default (cls : ClassDef) :
  Forall (fun p => param_has_default p = false)
         (Arguments._get_required_initialization_params cls).
Proof.
  apply Forall_forall. intros p Hin.
  unfold Arguments._get_required_initialization_params in Hin.
  apply filter_In in Hin as [_ Hp].
  unfold Arguments._has_required_initializer in Hp.
  now apply negb_true_iff in Hp.
Qed.

Lemma required_params_in (cls : ClassDef) (p : InitializerParameter) :
  In p (Arguments._get_required_initialization_params cls)
  <-> In p (Inspection.get_initialization_args cls)
      /\ param_has_default p = false.
Proof.
  unfold Arguments._get_required_initialization_params.
  rewrite filter_In. unfold Arguments._has_required_initializer.
  now rewrite negb_true_iff.
Qed.

Lemma Forall2_map_self {A : Type} (R : A -> A -> Prop) (f : A -> A)
      (l : list A) :
  (forall x, In x l -> R x (f x)) -> Forall2 R l (map f l).
Proof.
  induction l as [|x rest IH]; simpl; intros H; constructor.
  - apply H. now left.
  - apply IH. intros y Hy. apply H. now right.
Qed.

(** C4: after a reconciliation that returns, every descriptor whose name is
    that of a constructor parameter without a default has
    [has_initializer = True] and [required = (default is None)], its other
    fields being as before; a descriptor matching no such parameter is
    unchanged. *)
Theorem reconciliation_sets_flags (cls : ClassDef) (w w' : World) :
  Arguments._check_required_args cls w = (w', Ok tt) ->
  Forall2
    (fun d d' =>
       (forall p,
           In p (Inspection.get_initialization_args cls) ->
           param_has_default p = false ->
           Argument.name d = Some (param_name p) ->
           Argument.has_initializer d' = true
           /\ Argument.required d'
              = Arguments.is_none (Argument.default d')
           /\ d' = flagged d true (Arguments.is_none (Argument.default d)))
       /\ ((forall p,
               In p (Inspection.get_initialization_args cls) ->
               param_has_default p = false ->
               Argument.name d <> Some (param_name p)) ->
           d' = d))
    (descriptors w) (descriptors w').
Proof.
  unfold Arguments._check_required_args.
  destruct (Arguments._mark_required_args _ _) as [args r] eqn:Hmark.
  intros [= <- ->]. simpl.
  rewrite (mark_args_ok _ (required_params_have_no_default cls) _ _ Hmark).
  apply Forall2_map_self. intros d _. unfold reconciled.
  destruct (matches_parameter _ d) eqn:Hm.
  - split; [intros; repeat split|].
    intros Hnone. apply matches_parameter_true in Hm as [p [Hin Hp]].
    apply required_params_in in Hin as [Hin Hdef].
    now destruct (Hnone p Hin Hdef).
  - split; [|reflexivity].
    intros p Hin Hdef Hname.
    assert (Ht : matches_parameter
                   (Arguments._get_required_initialization_params cls) d
                 = true).
    { apply matches_parameter_true. exists p. split; [|exact Hname].
      now apply required_params_in. }
    rewrite Ht in Hm. discriminate.
Qed.

Lemma reconciliation_sets_flags_witness :
  let w' := fst (Arguments._check_required_args Greeter (greeter_world [])) in
  Arguments._check_required_args Greeter (greeter_world []) = (w', Ok tt)
  /\ Forall2
       (fun d d' =>
          (forall p,
              In p (Inspection.get_initialization_args Greeter) ->
              param_has_default p = false ->
              Argument.name d = Some (param_name p) ->
              Argument.has_initializer d' = true
              /\ Argument.required d'
                 = Arguments.is_none (Argument.default d')
              /\ d' = flagged d true
                        (Arguments.is_none (Argument.default d)))
          /\ ((forall p,
                  In p (Inspection.get_initialization_args Greeter) ->
                  param_has_default p = false ->
                  Argument.name d <> Some (param_name p)) ->
              d' = d))
       (descriptors (greeter_world [])) (descriptors w').
Proof.
  intros w'. split; [reflexivity|].
  apply (reconciliation_sets_flags Greeter (greeter_world []) w').
  reflexivity.
Defined.

(** ** Validation of the declaration *)

(** X24: where the check does run.  When some descriptor has no write
    accessor, has a default value and bears the name of a constructor parameter
    without a default (so that reconciliation leaves it with
    [required = False]), [parse()] fails with the configuration error
    naming the first such descriptor in discovery order, and it fails
    before the process input is read. *)
Theorem parse_rejects_unsettable
        (lib : FlagLibrary) (cls : ClassDef) (w : World)
        (d : Argument.Argument) (p : InitializerParameter) :
  In d (descriptors w) ->
  Argument.fset d = None ->
  Argument.default d <> None ->
  In p (Inspection.get_initialization_args cls) ->
  param_has_default p = false ->
  Argument.name d = Some (param_name p) ->
  let required_params := Arguments._get_required_initialization_params cls in
  exists pre d0 post w',
    descriptors w = (pre ++ d0 :: post)%list
    /\ Forall (fun x => unsettable required_params x = false) pre
    /\ unsettable required_params d0 = true
    /\ Arguments.parse lib cls w = (w', Raise (configuration_error d0))
    /\ events w' = events w.
Proof.
  intros Hin Hfset Hdefault Hp Hnodefault Hname required_params.
  assert (Hd : unsettable required_params d = true).
  { unfold unsettable. rewrite Hfset.
    destruct (Argument.default d); [|contradiction]. simpl.
    apply matches_parameter_true. exists p. split; [|exact Hname].
    now apply required_params_in. }
  assert (Hex : existsb (unsettable required_params) (descriptors w) = true).
  { apply existsb_exists. now exists d. }
  destruct (first_unsettable _ _ Hex) as [pre [d0 [post [Hw [Hpre Hd0]]]]].
  pose proof (mark_args_first_unsettable
                _ (required_params_have_no_default cls)
                pre d0 post Hpre Hd0) as Hraise.
  fold required_params in Hraise. rewrite <- Hw in Hraise.
  exists pre, d0, post.
  unfold Arguments.parse, Arguments._parse_arguments,
    Arguments._parse_and_check_args, Arguments._check_required_args.
  fold required_params.
  destruct (Arguments._mark_required_args (descriptors w) required_params)
    as [args r].
  simpl in Hraise. subst r.
  exists (set_descriptors w args). repeat split; assumption.
Qed.

Lemma parse_rejects_unsettable_witness :
  In greeting_argument (descriptors (salute_world ["--title"; "Sir"]))
  /\ Argument.fset greeting_argument = None
  /\ Argument.default greeting_argument <> None
  /\ In (mkParameter "greeting" false)
        (Inspection.get_initialization_args Salute)
  /\ Argument.name greeting_argument = Some "greeting"
  /\ exists pre d0 post w',
      descriptors (salute_world ["--title"; "Sir"])
      = (pre ++ d0 :: post)%list
      /\ Forall (fun x =>
                   unsettable
                     (Arguments._get_required_initialization_params Salute) x
                   = false) pre
      /\ unsettable
           (Arguments._get_required_initialization_params Salute) d0 = true
      /\ Arguments.parse SimpleArgparse.library Salute
           (salute_world ["--title"; "Sir"])
         = (w', Raise (configuration_error d0))
      /\ events w' = events (salute_world ["--title"; "Sir"]).
Proof.
  assert (Hin : In greeting_argument
                   (descriptors (salute_world ["--title"; "Sir"])))
    by (simpl; now left).
  assert (Hdefault : Argument.default greeting_argument <> None)
    by discriminate.
  assert (Hp : In (mkParameter "greeting" false)
                  (Inspection.get_initialization_args Salute))
    by (simpl; now left).
  split; [exact Hin|]. split; [reflexivity|]. split; [exact Hdefault|].
  split; [exact Hp|]. split; [reflexivity|].
  exact (parse_rejects_unsettable SimpleArgparse.library Salute
           (salute_world ["--title"; "Sir"]) greeting_argument
           (mkParameter "greeting" false)
           Hin eq_refl Hdefault Hp eq_refl eq_refl).
Defined.

Example salute_is_rejected :
  snd (Arguments.parse SimpleArgparse.library Salute
         (salute_world ["--title"; "Sir"]))
  = Raise (AttributeError
             ("greeting Argument must have a setter or a non-default "
              ++ "initialization arg defined in its __init__ method.")).
Proof. reflexivity. Qed.

(** C2: validation does not reach every descriptor.  The descriptor
    [name] of [Orphan] has no write accessor and is not required, so it
    is one the assertion of [_assert_argument_can_be_set] forbids; yet
    [parse()] reads the input and returns an instance, and [get_help()]
    returns a help text: neither fails with the configuration error. *)
Lemma parse_accepts_unmatched_descriptor :
  In name_argument (descriptors (orphan_world ["--name"; "foo"]))
  /\ Argument.fset name_argument = None
  /\ Argument.required name_argument = false
  /\ Arguments.parse SimpleArgparse.library Orphan
       (orphan_world ["--name"; "foo"])
     = (mkWorld [Argument.set_value name_argument (Some (VStr "foo"))]
                ["--name"; "foo"] [ReadArgv; Construct []],
        Ok [])
  /\ exists text,
      Arguments.get_help SimpleArgparse.library
        ArgumentDefaultsHelpFormatter (orphan_world ["--name"; "foo"])
      = (orphan_world ["--name"; "foo"], Ok text).
Proof.
  split; [simpl; now left|]. repeat split; try reflexivity.
  eexists. reflexivity.
Qed.

(** ** The adapter and the parse step *)

Section ParseStep.

Import Argument Arguments.

Variable lib : FlagLibrary.


Variable cls : ClassDef.

(** When the declaration is accepted, the flags are registered and the
    library reports a failure, [parse()] raises the domain error after
    reading the input and printing the usage, and does nothing else. *)
Lemma parse_library_failure (w w1 : World)
      (parser : PropertyArgumentParser.Parser) (message : string) :
  _check_required_args cls w = (w1, Ok tt) ->
  _add_arguments lib (PropertyArgumentParser.__init__ HelpFormatter)
                 (descriptors w1) = Ok parser ->
  lib_parse_known_args lib (PropertyArgumentParser.registrations parser)
                       (argv w1) = CallsError message ->
  parse lib cls w
  = (emit (emit w1 ReadArgv) PrintUsage,
     Raise (DomainError (Exceptions.ArgumentParseError message None))).
Proof.
  intros Hcheck Hadd Hlib.
  unfold parse, _parse_arguments, _parse_and_check_args.
  rewrite Hcheck, Hadd.
  unfold _parse_known_args, PropertyArgumentParser.parse_known_args.
  simpl. rewrite Hlib. reflexivity.
Qed.

Lemma check_keeps_input (w w1 : World) (r : result unit) :
  _check_required_args cls w = (w1, r) ->
  argv w1 = argv w /\ events w1 = events w.
Proof.
  unfold _check_required_args.
  destruct (_mark_required_args _ _) as [args r'].
  intros [= <- _]. split; reflexivity.
Qed.

End ParseStep.

(** C6: when the wrapped library reports a parse failure, the adapter
    prints the usage and raises the domain error [ArgumentParseError]
    whose description is the library's message after the prefix
    ['Argument error: ']; the outcome is not a process exit, which is what
    the overridden [ArgumentParser.error] yields. *)
Theorem adapter_raises_parse_error
        (lib : FlagLibrary) (parser : PropertyArgumentParser.Parser)
        (w : World) (message : string) :
  lib_parse_known_args lib (PropertyArgumentParser.registrations parser)
                       (argv w) = CallsError message ->
  PropertyArgumentParser.parse_known_args lib parser w
  = (emit (emit w ReadArgv) PrintUsage,
     Raise (DomainError (Exceptions.ArgumentParseError message None)))
  /\ Exceptions.str (Exceptions.ArgumentParseError message None)
     = "Argument error: " ++ message
  /\ (forall status,
         snd (PropertyArgumentParser.parse_known_args lib parser w)
         <> Raise (SystemExit status))
  /\ snd (PropertyArgumentParser.ArgumentParser_error (A := unit) w message)
     = Raise (SystemExit 2).
Proof.
  intros Hlib.
  assert (H : PropertyArgumentParser.parse_known_args lib parser w
              = (emit (emit w ReadArgv) PrintUsage,
                 Raise (DomainError
                          (Exceptions.ArgumentParseError message None)))).
  { unfold PropertyArgumentParser.parse_known_args. simpl.
    rewrite Hlib. reflexivity. }
  split; [exact H|]. split; [reflexivity|]. split; [|reflexivity].
  intros status. rewrite H. discriminate.
Qed.

Lemma adapter_raises_parse_error_witness :
  let message := "the following arguments are required: --name" in
  let w := greeter_world ["--title"; "Sir"] in
  lib_parse_known_args SimpleArgparse.library
    (PropertyArgumentParser.registrations name_parser) (argv w)
  = CallsError message
  /\ PropertyArgumentParser.parse_known_args SimpleArgparse.library
       name_parser w
     = (emit (emit w ReadArgv) PrintUsage,
        Raise (DomainError (Exceptions.ArgumentParseError message None)))
  /\ Exceptions.str (Exceptions.ArgumentParseError message None)
     = "Argument error: " ++ message
  /\ (forall status,
         snd (PropertyArgumentParser.parse_known_args SimpleArgparse.library
                name_parser w)
         <> Raise (SystemExit status))
  /\ snd (PropertyArgumentParser.ArgumentParser_error (A := unit) w message)
     = Raise (SystemExit 2).
Proof.
  intros message w. split; [reflexivity|].
  apply (adapter_raises_parse_error SimpleArgparse.library name_parser w
                                    message).
  reflexivity.
Defined.

(** ** The sample library honours the contract on required flags *)

Section SampleLibrary.

Import SimpleArgparse.






End SampleLibrary.

(** ** Required flags and help *)




Example greeter_without_name :
  Arguments.parse SimpleArgparse.library Greeter
    (greeter_world ["--title"; "Sir"])
  = (mkWorld [flagged name_argument true true; title_argument]
             ["--title"; "Sir"] [ReadArgv; PrintUsage],
     Raise (DomainError
              (Domain CArgumentParseError
                 ("Argument error: "
                  ++ "the following arguments are required: --name")
                 None))).
Proof. reflexivity. Qed.

(** C9: [get_help()] leaves the process as it found it: every field of
    every descriptor is unchanged, nothing is added to the trace (the
    input is not read, nothing is constructed), and its result does not
    depend on the process input. *)
Theorem get_help_has_no_effect
        (lib : FlagLibrary) (formatter : Formatter) (w : World) :
  fst (Arguments.get_help lib formatter w) = w
  /\ descriptors (fst (Arguments.get_help lib formatter w)) = descriptors w
  /\ events (fst (Arguments.get_help lib formatter w)) = events w
  /\ forall input,
      snd (Arguments.get_help lib formatter
             (mkWorld (descriptors w) input (events w)))
      = snd (Arguments.get_help lib formatter w).
Proof.
  unfold Arguments.get_help, Arguments._get_arguments_without_class_reference.
  simpl.
  destruct (Arguments._add_arguments lib _ (descriptors w)) as [parser|e];
    repeat split; reflexivity.
Qed.

Example get_help_twice :
  let w := greeter_world ["--name"; "foo"] in
  Arguments.get_help SimpleArgparse.library ArgumentDefaultsHelpFormatter
    (fst (Arguments.get_help SimpleArgparse.library
            ArgumentDefaultsHelpFormatter w))
  = (w, Ok "usage: [-h] --name str --title str").
Proof. reflexivity. Qed.

(* ================================================================== *)
(** * Part III: further properties of the code *)
(* ================================================================== *)

From Stdlib Require Import Permutation Sorted.

(** ** Error chains of any length *)

Lemma caused_in_order_snoc (causes : list PyException)
      (cause error : PyException) :
  caused_in_order (causes ++ [cause]) ->
  Exceptions._get_inner_exception error = Some cause ->
  caused_in_order ((causes ++ [cause]) ++ [error]).
Proof.
  induction causes as [|x rest IH]; simpl; intros Hchain Hinner.
  - split; [exact Hinner|exact I].
  - destruct (rest ++ [cause])%list as [|y tail] eqn:Hrest.
    + destruct rest; discriminate.
    + simpl. destruct Hchain as [Hxy Htail]. split; [exact Hxy|].
      apply IH; assumption.
Qed.

(** X1: with a recursion depth no smaller than the chain, [unwrap()]
    returns the whole chain: as many errors as the chain has, the error
    itself last, each error being the cause of the next one and the first
    one having no cause. *)
Theorem unwrap_whole_chain (depth : nat) :
  forall e : PyException,
    chain_length e <= depth ->
    exists causes,
      Exceptions.unwrap depth e = Ok (causes ++ [e])%list
      /\ List.length (causes ++ [e]) = chain_length e
      /\ caused_in_order (causes ++ [e])
      /\ (forall root,
             hd_error (causes ++ [e]) = Some root ->
             Exceptions._get_inner_exception root = None).
Proof.
  unfold Exceptions.unwrap.
  induction depth as [|depth IH]; intros e Hdepth.
  - destruct e as [|? ? [inner|]]; simpl in Hdepth; lia.
  - assert (Hleaf : Exceptions._get_inner_exception e = None ->
                    chain_length e = 1 ->
                    exists causes,
                      Iterables.unwrap (S depth) (Some e)
                        Exceptions._get_inner_exception
                      = Ok (causes ++ [e])%list
                      /\ List.length (causes ++ [e]) = chain_length e
                      /\ caused_in_order (causes ++ [e])
                      /\ (forall root,
                             hd_error (causes ++ [e]) = Some root ->
                             Exceptions._get_inner_exception root = None)).
    { intros Hnone Hlen. exists [].
      rewrite (unwrap_leaf depth e Hnone), Hlen.
      split; [reflexivity|]. split; [reflexivity|].
      split; [exact I|]. intros root [= <-]. exact Hnone. }
    destruct e as [text|cls message [inner|]];
      [apply Hleaf; reflexivity | | apply Hleaf; reflexivity].
    simpl in Hdepth.
    destruct (IH inner) as [causes [Hunwrap [Hlen [Hchain Hroot]]]]; [lia|].
    exists (causes ++ [inner])%list.
    split; [apply (unwrap_step depth _ inner); [reflexivity|exact Hunwrap]|].
    split; [rewrite length_app, Hlen; simpl; lia|].
    split; [apply caused_in_order_snoc; [exact Hchain|reflexivity]|].
    intros root Hhd. apply Hroot.
    destruct causes; simpl in *; exact Hhd.
Qed.

Lemma unwrap_whole_chain_witness :
  chain_length chain_A <= 3
  /\ exists causes,
      Exceptions.unwrap 3 chain_A = Ok (causes ++ [chain_A])%list
      /\ List.length (causes ++ [chain_A]) = chain_length chain_A
      /\ caused_in_order (causes ++ [chain_A])
      /\ (forall root,
             hd_error (causes ++ [chain_A]) = Some root ->
             Exceptions._get_inner_exception root = None).
Proof.
  assert (H : chain_length chain_A <= 3) by (simpl; lia).
  split; [exact H|]. exact (unwrap_whole_chain 3 chain_A H).
Defined.

(** X2: with a recursion depth smaller than the chain, [unwrap()] and
    [flatten()] raise [RecursionError]. *)
Theorem unwrap_recursion_limit (linesep : string) (depth : nat) :
  forall e : PyException,
    depth < chain_length e ->
    Exceptions.unwrap depth e = Raise RecursionError
    /\ Exceptions.flatten linesep depth e = Raise RecursionError.
Proof.
  assert (H : forall d e, d < chain_length e ->
                          Exceptions.unwrap d e = Raise RecursionError).
  { unfold Exceptions.unwrap.
    induction d as [|d IH]; intros e Hd; [reflexivity|].
    destruct e as [text|cls message [inner|]]; simpl in Hd; try lia.
    simpl. rewrite (IH inner); [reflexivity|lia]. }
  intros e Hd. split; [apply H, Hd|].
  unfold Exceptions.flatten, Exceptions._flatten.
  rewrite (H depth e Hd). reflexivity.
Qed.

Lemma unwrap_recursion_limit_witness :
  2 < chain_length chain_A
  /\ Exceptions.unwrap 2 chain_A = Raise RecursionError
  /\ Exceptions.flatten LF 2 chain_A = Raise RecursionError.
Proof.
  assert (H : 2 < chain_length chain_A) by (simpl; lia).
  split; [exact H|]. exact (unwrap_recursion_limit LF 2 chain_A H).
Defined.

(** ** Joining and splitting text *)

Lemma string_app_assoc (a b c : string) : (a ++ b) ++ c = a ++ b ++ c.
Proof.
  induction a as [|x a IH]; simpl; [reflexivity|]. now rewrite IH.
Qed.

Lemma string_app_empty_r (a : string) : a ++ "" = a.
Proof.
  induction a as [|x a IH]; simpl; [reflexivity|]. now rewrite IH.
Qed.

Lemma concat_app_nonempty (d : string) (xs ys : list string) :
  xs <> [] -> ys <> [] ->
  String.concat d (xs ++ ys) = String.concat d xs ++ d ++ String.concat d ys.
Proof.
  induction xs as [|x rest IH]; intros Hxs Hys; [contradiction|].
  destruct rest as [|x' rest'].
  - simpl. destruct ys; [contradiction|reflexivity].
  - change (String.concat d ((x :: x' :: rest') ++ ys))
      with (x ++ d ++ String.concat d ((x' :: rest') ++ ys)).
    rewrite IH; [|discriminate|exact Hys].
    change (String.concat d (x :: x' :: rest'))
      with (x ++ d ++ String.concat d (x' :: rest')).
    rewrite !string_app_assoc. reflexivity.
Qed.

(** X3: [flatten] ignores the empty items wherever they stand, and the
    join of two lists that both have an item to show is the two joins put
    together with the delimiter. *)
Theorem flatten_skips_and_composes (xs ys : list string) (d : string) :
  Iterables.flatten (xs ++ "" :: ys) d = Iterables.flatten (xs ++ ys) d
  /\ (existsb (fun item => negb (item =? "")) xs = true ->
      existsb (fun item => negb (item =? "")) ys = true ->
      Iterables.flatten (xs ++ ys) d
      = Iterables.flatten xs d ++ d ++ Iterables.flatten ys d).
Proof.
  unfold Iterables.flatten. split.
  - rewrite !filter_app. reflexivity.
  - intros Hxs Hys. rewrite filter_app.
    apply concat_app_nonempty.
    + apply existsb_exists in Hxs as [x [Hin Hx]].
      intros Hnil.
      assert (Hf : In x (filter (fun item => negb (item =? "")) xs))
        by (apply filter_In; now split).
      rewrite Hnil in Hf. contradiction.
    + apply existsb_exists in Hys as [y [Hin Hy]].
      intros Hnil.
      assert (Hf : In y (filter (fun item => negb (item =? "")) ys))
        by (apply filter_In; now split).
      rewrite Hnil in Hf. contradiction.
Qed.

Lemma lstrip_shape (s : string) :
  lstrip s = EmptyString
  \/ exists c rest, lstrip s = String c rest /\ is_space c = false.
Proof.
  induction s as [|c rest IH]; simpl; [now left|].
  destruct (is_space c) eqn:Hc; [exact IH|].
  right. now exists c, rest.
Qed.

Lemma rstrip_idempotent (s : string) : rstrip (rstrip s) = rstrip s.
Proof.
  induction s as [|c rest IH]; simpl; [reflexivity|].
  destruct (is_space c && (rstrip rest =? "")) eqn:Hcut; [reflexivity|].
  simpl. rewrite IH, Hcut. reflexivity.
Qed.

Lemma strip_idempotent (s : string) : strip (strip s) = strip s.
Proof.
  unfold strip.
  destruct (lstrip_shape s) as [Hempty|[c [rest [Hshape Hc]]]].
  - rewrite Hempty. reflexivity.
  - rewrite Hshape. simpl. rewrite Hc. simpl. rewrite Hc.
    simpl. rewrite Hc. simpl. rewrite rstrip_idempotent. reflexivity.
Qed.

Lemma split_from_not_nil (sep : string) :
  forall text skip cur, IterablesRest.split_from sep text skip cur <> [].
Proof.
  induction text as [|c rest IH]; intros skip cur;
    cbn [IterablesRest.split_from]; [intros H; discriminate H|].
  destruct skip; [|apply IH].
  destruct (prefix sep (String c rest)); [intros H; discriminate H|apply IH].
Qed.

Lemma prefix_drop (s : string) :
  forall t, prefix s t = true ->
            (String.length s <= String.length t)%nat
            /\ t = s ++ drop_chars (String.length s) t.
Proof.
  induction s as [|a s IH]; intros t.
  - intros _. split; [simpl; lia|reflexivity].
  - destruct t as [|b t]; cbn [prefix]; [intros H; discriminate H|].
    destruct (ascii_dec a b) as [<-|_]; [|intros H; discriminate H].
    intros H. destruct (IH t H) as [Hlen Heq].
    split; [simpl; lia|]. simpl. now rewrite <- Heq.
Qed.

Lemma concat_cons (sep x : string) (l : list string) :
  l <> [] -> String.concat sep (x :: l) = x ++ sep ++ String.concat sep l.
Proof. destruct l; [contradiction|reflexivity]. Qed.

Lemma split_from_join_back (a : ascii) (sep' : string) :
  forall text skip cur,
    (skip <= String.length text)%nat ->
    String.concat (String a sep')
      (IterablesRest.split_from (String a sep') text skip cur)
    = cur ++ drop_chars skip text.
Proof.
  induction text as [|c rest IH]; intros skip cur Hskip.
  - simpl in Hskip. assert (skip = 0)%nat as -> by lia.
    simpl. now rewrite string_app_empty_r.
  - destruct skip as [|skip].
    + cbn [IterablesRest.split_from drop_chars].
      destruct (prefix (String a sep') (String c rest)) eqn:Hp.
      * rewrite concat_cons by apply split_from_not_nil.
        destruct (prefix_drop _ _ Hp) as [Hlen Heq].
        rewrite IH; [|simpl in *; lia].
        f_equal. symmetry. etransitivity; [exact Heq|].
        simpl. rewrite Nat.sub_0_r. reflexivity.
      * rewrite IH; [|lia]. cbn [drop_chars].
        rewrite string_app_assoc. reflexivity.
    + cbn [IterablesRest.split_from drop_chars].
      apply IH. simpl in Hskip. lia.
Qed.

Lemma contains_char_app (c : ascii) (s t : string) :
  contains_char c (s ++ t) = contains_char c s || contains_char c t.
Proof.
  induction s as [|x s IH]; simpl; [reflexivity|].
  now rewrite IH, orb_assoc.
Qed.

Lemma split_from_pieces_without (c : ascii) :
  forall text cur,
    contains_char c cur = false ->
    Forall (fun piece => contains_char c piece = false)
           (IterablesRest.split_from (String c EmptyString) text 0 cur).
Proof.
  induction text as [|x rest IH]; intros cur Hcur;
    cbn [IterablesRest.split_from prefix].
  - now constructor.
  - destruct (ascii_dec c x) as [<-|Hne].
    + destruct rest; (constructor; [exact Hcur|]); now apply IH.
    + apply IH. rewrite contains_char_app, Hcur. simpl.
      rewrite orb_false_r. apply Ascii.eqb_neq. congruence.
Qed.

(** X4: [split] rejects the empty delimiter with a [ValueError].  With any
    other delimiter it cuts the text at the delimiter: the raw pieces
    joined with the delimiter give the text back, so there is always at
    least one raw piece, and for a one-character delimiter no raw piece
    contains that character.  The result is the raw pieces that are not
    empty, each one stripped, in order.  The filter comes before the
    strip: every returned item is stripped (stripping it again changes
    nothing), but a raw piece made of white space only is kept and comes
    out as the empty string. *)
Theorem split_cuts_filters_strips (text delimiter : string) :
  (delimiter = "" ->
   IterablesRest.split text delimiter = Raise (ValueError "empty separator"))
  /\ (delimiter <> "" ->
      exists raw,
        IterablesRest.str_split text delimiter = Ok raw
        /\ raw <> []
        /\ String.concat delimiter raw = text
        /\ (forall c, delimiter = String c EmptyString ->
                      Forall (fun piece => contains_char c piece = false) raw)
        /\ IterablesRest.split text delimiter
           = Ok (map strip (filter (fun piece => negb (piece =? "")) raw))
        /\ Forall (fun item => strip item = item)
                  (map strip (filter (fun piece => negb (piece =? "")) raw))
        /\ (forall piece,
               In piece raw -> piece <> "" -> strip piece = "" ->
               In "" (map strip
                          (filter (fun piece => negb (piece =? "")) raw)))).
Proof.
  split.
  - intros ->. reflexivity.
  - intros Hne. destruct delimiter as [|a sep']; [contradiction|].
    exists (IterablesRest.split_from (String a sep') text 0 EmptyString).
    split; [reflexivity|].
    split; [apply split_from_not_nil|].
    split; [apply (split_from_join_back a sep' text 0 ""); lia|].
    split; [intros c [= -> ->]; now apply split_from_pieces_without|].
    split; [reflexivity|].
    split.
    + apply Forall_forall. intros item Hin.
      apply in_map_iff in Hin as [piece [<- _]]. apply strip_idempotent.
    + intros piece Hin Hpiece Hstrip. apply in_map_iff.
      exists piece. split; [exact Hstrip|].
      apply filter_In. split; [exact Hin|].
      apply negb_true_iff. now apply String.eqb_neq.
Qed.

Example split_keeps_blank_piece :
  IterablesRest.split " a , ,,b " "," = Ok ["a"; ""; "b"].
Proof. reflexivity. Qed.

Section SplitOneCharacter.

Variable c : ascii.

Let sep : string := String c EmptyString.

Lemma split_from_piece (item : string) :
  forall tail cur,
    contains_char c item = false ->
    IterablesRest.split_from sep (item ++ tail) 0 cur
    = IterablesRest.split_from sep tail 0 (cur ++ item).
Proof.
  induction item as [|x item IH]; intros tail cur Hc; simpl.
  - now rewrite string_app_empty_r.
  - simpl in Hc. apply orb_false_iff in Hc as [Hx Hitem].
    destruct (ascii_dec c x) as [Heq|_].
    + subst x. rewrite Ascii.eqb_refl in Hx. discriminate.
    + rewrite (IH tail _ Hitem), string_app_assoc. reflexivity.
Qed.

Lemma split_from_separator (tail cur : string) :
  IterablesRest.split_from sep (String c tail) 0 cur
  = cur :: IterablesRest.split_from sep tail 0 EmptyString.
Proof.
  simpl. destruct (ascii_dec c c) as [_|Hne]; [|contradiction].
  destruct tail; reflexivity.
Qed.

Lemma split_from_join (rest : list string) :
  forall item cur,
    Forall (fun piece => contains_char c piece = false) (item :: rest) ->
    IterablesRest.split_from sep (String.concat sep (item :: rest)) 0 cur
    = (cur ++ item) :: rest.
Proof.
  induction rest as [|next rest IH]; intros item cur Hall.
  - simpl. inversion Hall as [|? ? Hitem _]; subst.
    rewrite <- (string_app_empty_r item) at 1.
    rewrite (split_from_piece item "" cur Hitem). reflexivity.
  - inversion Hall as [|? ? Hitem Hrest]; subst.
    change (String.concat sep (item :: next :: rest))
      with (item ++ String c (String.concat sep (next :: rest))).
    rewrite (split_from_piece item _ cur Hitem), split_from_separator.
    rewrite (IH next "" Hrest). reflexivity.
Qed.

(** X5: round trip.  Items that are not empty, are already stripped and
    do not contain the delimiter character come back unchanged from
    [split] after [flatten] has joined them with that character. *)
Theorem split_flatten_round_trip (items : list string) :
  Forall (fun item => item <> ""
                      /\ strip item = item
                      /\ contains_char c item = false) items ->
  IterablesRest.split (Iterables.flatten items (String c EmptyString))
                      (String c EmptyString)
  = Ok items.
Proof.
  intros Hall.
  assert (Hne : Forall (fun item => item <> "") items).
  { eapply Forall_impl; [|exact Hall]. now intros item [H _]. }
  assert (Hchar : Forall (fun item => contains_char c item = false) items).
  { eapply Forall_impl; [|exact Hall]. now intros item [_ [_ H]]. }
  assert (Hstrip : map strip items = items).
  { clear Hne Hchar. induction Hall as [|item rest [_ [Hs _]] _ IH];
      simpl; [reflexivity|]. now rewrite Hs, IH. }
  unfold Iterables.flatten. rewrite (filter_nonempty_id items Hne).
  unfold IterablesRest.split, IterablesRest.str_split. simpl.
  destruct items as [|item rest]; [reflexivity|].
  fold sep. rewrite (split_from_join rest item "" Hchar). simpl.
  change ((if negb (item =? "") then item :: filter (fun x => negb (x =? "")) rest
           else filter (fun x => negb (x =? "")) rest))
    with (filter (fun x => negb (x =? "")) (item :: rest)).
  rewrite (filter_nonempty_id (item :: rest) Hne), Hstrip. reflexivity.
Qed.

End SplitOneCharacter.

Lemma split_flatten_round_trip_witness :
  Forall (fun item => item <> ""
                      /\ strip item = item
                      /\ contains_char ","%char item = false)
         ["a"; "b c"; "d"]
  /\ IterablesRest.split (Iterables.flatten ["a"; "b c"; "d"] ",") ","
     = Ok ["a"; "b c"; "d"].
Proof.
  assert (H : Forall (fun item => item <> ""
                                  /\ strip item = item
                                  /\ contains_char ","%char item = false)
                     ["a"; "b c"; "d"]).
  { repeat constructor; discriminate. }
  split; [exact H|].
  exact (split_flatten_round_trip ","%char ["a"; "b c"; "d"] H).
Defined.

(** ** First items and aggregation *)

(** X6: [get_first_item] returns the first item that meets the condition:
    every item before it fails the condition; it raises [StopIteration]
    exactly when no item meets the condition (in particular on the empty
    iterable).  With the default condition it is the head of the
    iterable. *)
Theorem get_first_item_is_first {T : Type} (iterable : list T)
        (condition : T -> bool) :
  (forall item,
      IterablesRest.get_first_item iterable condition = Ok item
      <-> exists before after,
           iterable = (before ++ item :: after)%list
           /\ forallb (fun x => negb (condition x)) before = true
           /\ condition item = true)
  /\ (IterablesRest.get_first_item iterable condition = Raise StopIteration
      <-> existsb condition iterable = false)
  /\ IterablesRest.get_first_item iterable (fun _ => true)
     = Iterables.get_first_item iterable.
Proof.
  split; [|split].
  - induction iterable as [|x rest IH]; intros item; simpl.
    + split; [discriminate|].
      intros [before [after [H _]]]. destruct before; discriminate.
    + destruct (condition x) eqn:Hx.
      * split.
        -- intros [= <-]. exists [], rest. now repeat split.
        -- intros [before [after [Heq [Hbefore Hitem]]]].
           destruct before as [|y before]; simpl in *.
           ++ now injection Heq as -> _.
           ++ injection Heq as <- _. rewrite Hx in Hbefore. discriminate.
      * rewrite IH. split.
        -- intros [before [after [-> [Hbefore Hitem]]]].
           exists (x :: before), after. simpl. rewrite Hx. now repeat split.
        -- intros [before [after [Heq [Hbefore Hitem]]]].
           destruct before as [|y before]; simpl in *.
           ++ injection Heq as -> _. rewrite Hx in Hitem. discriminate.
           ++ injection Heq as <- ->. exists before, after.
              rewrite Hx in Hbefore. now repeat split.
  - induction iterable as [|x rest IH]; simpl; [tauto|].
    destruct (condition x); simpl; [|exact IH].
    split; discriminate.
  - destruct iterable; reflexivity.
Qed.

Lemma aggregate_loop_spec {T : Type} (condition : list T -> T -> bool) :
  forall rest aggregate index,
    exists taken,
      IterablesRest.aggregate_loop condition rest aggregate index
      = ((aggregate ++ taken)%list, index + List.length taken)
      /\ taken = firstn (List.length taken) rest
      /\ (forall k item,
             nth_error taken k = Some item ->
             condition (aggregate ++ firstn k taken)%list item = true)
      /\ (forall item,
             nth_error rest (List.length taken) = Some item ->
             condition (aggregate ++ taken)%list item = false).
Proof.
  induction rest as [|x rest IH]; intros aggregate index; simpl.
  - exists []. rewrite app_nil_r, Nat.add_0_r. repeat split.
    + intros k item H. destruct k; discriminate.
    + discriminate.
  - destruct (condition aggregate x) eqn:Hx.
    + destruct (IH (aggregate ++ [x])%list (S index))
        as [taken [Hloop [Hfirst [Hacc Hstop]]]].
      exists (x :: taken). rewrite Hloop, <- app_assoc. simpl.
      split; [f_equal; lia|]. split; [now rewrite <- Hfirst|]. split.
      * intros k item Hk. destruct k as [|k]; simpl in *.
        -- injection Hk as <-. now rewrite app_nil_r.
        -- specialize (Hacc k item Hk).
           now rewrite <- app_assoc in Hacc.
      * intros item Hitem. specialize (Hstop item Hitem).
        now rewrite <- app_assoc in Hstop.
    + exists []. rewrite app_nil_r, Nat.add_0_r. repeat split.
      * intros k item H. destruct k; discriminate.
      * simpl. intros item [= <-]. exact Hx.
Qed.

(** X7: [aggregate_while] returns a run of consecutive items starting at
    [start] and the index just after it.  Each item of the run met the
    condition on the items taken before it, and the run is as long as it
    can be: the item at the returned index, when there is one, fails the
    condition on the run. *)
Theorem aggregate_while_takes_a_run {T : Type} (items : list T) (start : nat)
        (condition : list T -> T -> bool) :
  let aggregate := fst (IterablesRest.aggregate_while items start condition) in
  let index := snd (IterablesRest.aggregate_while items start condition) in
  index = start + List.length aggregate
  /\ aggregate = firstn (List.length aggregate) (skipn start items)
  /\ (forall k item,
         nth_error aggregate k = Some item ->
         condition (firstn k aggregate) item = true)
  /\ (forall item,
         nth_error items index = Some item ->
         condition aggregate item = false).
Proof.
  unfold IterablesRest.aggregate_while.
  destruct (aggregate_loop_spec condition (skipn start items) [] start)
    as [taken [Hloop [Hfirst [Hacc Hstop]]]].
  rewrite Hloop. simpl.
  split; [reflexivity|]. split; [exact Hfirst|]. split; [exact Hacc|].
  intros item Hitem. apply Hstop.
  rewrite nth_error_skipn. exact Hitem.
Qed.

(** ** Sorted values *)

Section SortedValues.

Variable T : Type.
Variable truthy : T -> bool.
Variable key : T -> nat.

Lemma goes_first_in_order (reverse : bool) (y x : T) :
  IterablesRest.goes_first T key reverse y x = true ->
  in_order key reverse y x.
Proof.
  unfold IterablesRest.goes_first, in_order.
  destruct reverse; intros H; apply Nat.ltb_lt in H; lia.
Qed.

Lemma not_goes_first_in_order (reverse : bool) (y x : T) :
  IterablesRest.goes_first T key reverse y x = false ->
  in_order key reverse x y.
Proof.
  unfold IterablesRest.goes_first, in_order.
  destruct reverse; intros H; apply Nat.ltb_ge in H; lia.
Qed.

Lemma in_order_trans (reverse : bool) (a b c : T) :
  in_order key reverse a b -> in_order key reverse b c ->
  in_order key reverse a c.
Proof. unfold in_order. destruct reverse; lia. Qed.

Lemma insert_item_perm (reverse : bool) (x : T) (sorted : list T) :
  Permutation (x :: sorted) (IterablesRest.insert_item T key reverse x sorted).
Proof.
  induction sorted as [|y rest IH]; simpl; [reflexivity|].
  destruct (IterablesRest.goes_first T key reverse y x); [|reflexivity].
  rewrite perm_swap. now apply perm_skip.
Qed.

Lemma list_sort_perm (reverse : bool) (array : list T) :
  Permutation array (IterablesRest.list_sort T key reverse array).
Proof.
  induction array as [|x rest IH]; simpl; [reflexivity|].
  rewrite <- insert_item_perm. now apply perm_skip.
Qed.

Lemma insert_item_sorted (reverse : bool) (x : T) (sorted : list T) :
  StronglySorted (in_order key reverse) sorted ->
  StronglySorted (in_order key reverse)
                 (IterablesRest.insert_item T key reverse x sorted).
Proof.
  induction 1 as [|y rest Hsorted IH Hall]; simpl.
  - constructor; constructor.
  - destruct (IterablesRest.goes_first T key reverse y x) eqn:Hfirst.
    + constructor; [exact IH|].
      apply (Permutation_Forall (insert_item_perm reverse x rest)).
      constructor; [now apply goes_first_in_order|exact Hall].
    + apply not_goes_first_in_order in Hfirst.
      constructor; [now constructor|].
      constructor; [exact Hfirst|].
      eapply Forall_impl; [|exact Hall].
      intros z Hz. now apply in_order_trans with (b := y).
Qed.

Lemma list_sort_sorted (reverse : bool) (array : list T) :
  StronglySorted (in_order key reverse)
                 (IterablesRest.list_sort T key reverse array).
Proof.
  induction array as [|x rest IH]; simpl; [constructor|].
  now apply insert_item_sorted.
Qed.

(** The head of the sorted list is the first item of the array that no
    other item has to precede. *)
Lemma list_sort_head (reverse : bool) (array : list T) :
  array <> [] ->
  exists v tail before after,
    IterablesRest.list_sort T key reverse array = v :: tail
    /\ array = (before ++ v :: after)%list
    /\ (forall y, In y before ->
                  IterablesRest.goes_first T key reverse v y = true)
    /\ (forall y, In y after -> in_order key reverse v y).
Proof.
  induction array as [|x rest IH]; intros Hne; [contradiction|].
  destruct rest as [|x' rest'].
  - exists x, [], [], []. simpl. repeat split; intros y [].
  - destruct IH as [v [tail [before [after [Hsort [Hsplit [Hb Ha]]]]]]];
      [discriminate|].
    change (IterablesRest.list_sort T key reverse (x :: x' :: rest'))
      with (IterablesRest.insert_item T key reverse x
              (IterablesRest.list_sort T key reverse (x' :: rest'))).
    rewrite Hsort. simpl.
    destruct (IterablesRest.goes_first T key reverse v x) eqn:Hfirst.
    + exists v, (IterablesRest.insert_item T key reverse x tail),
        (x :: before), after.
      rewrite Hsplit. repeat split; try assumption.
      intros y [<-|Hy]; [exact Hfirst|now apply Hb].
    + exists x, (v :: tail), [], (x' :: rest').
      repeat split; [intros y []|].
      apply not_goes_first_in_order in Hfirst.
      intros y Hy. rewrite Hsplit in Hy.
      apply in_app_or in Hy as [Hy|[<-|Hy]].
      * apply in_order_trans with (b := v); [exact Hfirst|].
        now apply goes_first_in_order, Hb.
      * exact Hfirst.
      * apply in_order_trans with (b := v); [exact Hfirst|now apply Ha].
Qed.

Lemma first_sorted_value_ok (reverse : bool) (array : list T) :
  existsb truthy array = true ->
  exists sorted v before after,
    IterablesRest.get_first_sorted_value T truthy key (Some array) reverse
    = (Some sorted, Ok v)
    /\ Permutation array sorted
    /\ StronglySorted (in_order key reverse) sorted
    /\ array = (before ++ v :: after)%list
    /\ (forall y, In y before ->
                  IterablesRest.goes_first T key reverse v y = true)
    /\ (forall y, In y after -> in_order key reverse v y).
Proof.
  intros Hany.
  destruct array as [|first rest]; [discriminate|].
  destruct (list_sort_head reverse (first :: rest))
    as [v [tail [before [after [Hsort [Hsplit [Hb Ha]]]]]]]; [discriminate|].
  exists (IterablesRest.list_sort T key reverse (first :: rest)),
    v, before, after.
  split.
  - unfold IterablesRest.get_first_sorted_value, Asserts.assert_has_length.
    rewrite Hany. simpl negb. cbv iota. rewrite Hsort. reflexivity.
  - split; [apply list_sort_perm|]. split; [apply list_sort_sorted|].
    repeat split; assumption.
Qed.

(** X8: on an array with an item that is true, [get_lowest_value] sorts
    the array in place, stably and by increasing key, and returns the
    first item of the original array that has the smallest key. *)
Theorem get_lowest_value_is_first_minimum (array : list T) :
  existsb truthy array = true ->
  exists sorted v before after,
    IterablesRest.get_lowest_value T truthy key (Some array)
    = (Some sorted, Ok v)
    /\ Permutation array sorted
    /\ StronglySorted (fun a b => key a <= key b) sorted
    /\ array = (before ++ v :: after)%list
    /\ (forall y, In y before -> key v < key y)
    /\ (forall y, In y after -> key v <= key y).
Proof.
  intros Hany.
  destruct (first_sorted_value_ok false array Hany)
    as [sorted [v [before [after [Hcall [Hperm [Hsorted [Hsplit [Hb Ha]]]]]]]]].
  exists sorted, v, before, after.
  split; [exact Hcall|]. split; [exact Hperm|]. split; [exact Hsorted|].
  split; [exact Hsplit|]. split; [|exact Ha].
  intros y Hy. specialize (Hb y Hy).
  unfold IterablesRest.goes_first in Hb. now apply Nat.ltb_lt in Hb.
Qed.

(** X9: on an array with an item that is true, [get_highest_value] sorts
    the array in place, stably and by decreasing key, and returns the
    first item of the original array that has the greatest key. *)
Theorem get_highest_value_is_first_maximum (array : list T) :
  existsb truthy array = true ->
  exists sorted v before after,
    IterablesRest.get_highest_value T truthy key (Some array)
    = (Some sorted, Ok v)
    /\ Permutation array sorted
    /\ StronglySorted (fun a b => key b <= key a) sorted
    /\ array = (before ++ v :: after)%list
    /\ (forall y, In y before -> key y < key v)
    /\ (forall y, In y after -> key y <= key v).
Proof.
  intros Hany.
  destruct (first_sorted_value_ok true array Hany)
    as [sorted [v [before [after [Hcall [Hperm [Hsorted [Hsplit [Hb Ha]]]]]]]]].
  exists sorted, v, before, after.
  split; [exact Hcall|]. split; [exact Hperm|]. split; [exact Hsorted|].
  split; [exact Hsplit|]. split; [|exact Ha].
  intros y Hy. specialize (Hb y Hy).
  unfold IterablesRest.goes_first in Hb. now apply Nat.ltb_lt in Hb.
Qed.

(** X10: an array without an item that is true is rejected with the
    [ValueError] of [assert_has_length], whatever its length, and is left
    as it was; [has_any] is [False] of it. *)
Theorem sorted_value_needs_a_true_item (array : list T) (reverse : bool) :
  existsb truthy array = false ->
  IterablesRest.get_first_sorted_value T truthy key (Some array) reverse
  = (Some array,
     Raise (ValueError "The iterable must have at least 1 item."))
  /\ Asserts.assert_has_length truthy array
     = Raise (ValueError "The iterable must have at least 1 item.")
  /\ IterablesRest.has_any truthy (Some array) = false.
Proof.
  intros Hany. split; [|split].
  - destruct array as [|first rest]; [reflexivity|].
    unfold IterablesRest.get_first_sorted_value, Asserts.assert_has_length.
    rewrite Hany. reflexivity.
  - unfold Asserts.assert_has_length. rewrite Hany. reflexivity.
  - exact Hany.
Qed.

End SortedValues.

Lemma get_lowest_value_is_first_minimum_witness :
  existsb nonzero some_numbers = true
  /\ exists sorted v before after,
      IterablesRest.get_lowest_value nat nonzero tens (Some some_numbers)
      = (Some sorted, Ok v)
      /\ Permutation some_numbers sorted
      /\ StronglySorted (fun a b => tens a <= tens b) sorted
      /\ some_numbers = (before ++ v :: after)%list
      /\ (forall y, In y before -> tens v < tens y)
      /\ (forall y, In y after -> tens v <= tens y).
Proof.
  split; [reflexivity|].
  exact (get_lowest_value_is_first_minimum nat nonzero tens some_numbers
           eq_refl).
Defined.

Lemma get_highest_value_is_first_maximum_witness :
  existsb nonzero some_numbers = true
  /\ exists sorted v before after,
      IterablesRest.get_highest_value nat nonzero tens (Some some_numbers)
      = (Some sorted, Ok v)
      /\ Permutation some_numbers sorted
      /\ StronglySorted (fun a b => tens b <= tens a) sorted
      /\ some_numbers = (before ++ v :: after)%list
      /\ (forall y, In y before -> tens y < tens v)
      /\ (forall y, In y after -> tens y <= tens v).
Proof.
  split; [reflexivity|].
  exact (get_highest_value_is_first_maximum nat nonzero tens some_numbers
           eq_refl).
Defined.

Example highest_of_some_numbers :
  IterablesRest.get_highest_value nat nonzero tens (Some some_numbers)
  = (Some [52; 58; 31; 35; 0], Ok 52).
Proof. reflexivity. Qed.

Lemma sorted_value_needs_a_true_item_witness :
  existsb nonzero [0; 0] = false
  /\ IterablesRest.get_first_sorted_value nat nonzero tens (Some [0; 0]) false
     = (Some [0; 0],
        Raise (ValueError "The iterable must have at least 1 item."))
  /\ Asserts.assert_has_length nonzero [0; 0]
     = Raise (ValueError "The iterable must have at least 1 item.")
  /\ IterablesRest.has_any nonzero (Some [0; 0]) = false.
Proof.
  split; [reflexivity|].
  exact (sorted_value_needs_a_true_item nat nonzero tens [0; 0] false eq_refl).
Defined.

(** ** Naming conventions *)

Lemma prefix_two_one (name : string) :
  prefix "__" name = true -> prefix "_" name = true.
Proof.
  destruct name as [|a rest]; cbn [prefix]; [intros H; discriminate H|].
  destruct (ascii_dec "_" a); [|intros H; discriminate H].
  intros _. destruct rest; reflexivity.
Qed.

Lemma is_private_protected (name : string) :
  InspectionNames.is_private name = true ->
  InspectionNames.is_protected name = true.
Proof.
  unfold InspectionNames.is_private, InspectionNames.is_protected,
    InspectionNames.startswith.
  intros H. apply andb_true_iff in H as [_ H].
  now apply prefix_two_one.
Qed.

Lemma is_public_no_underscore (name : string) :
  InspectionNames.is_public name = negb (prefix "_" name).
Proof.
  pose proof (is_private_protected name) as Hpp.
  unfold InspectionNames.is_public.
  unfold InspectionNames.is_protected, InspectionNames.startswith in *.
  change InspectionNames.AccessModifier_protected with "_" in *.
  destruct (prefix "_" name).
  - now rewrite andb_false_r.
  - destruct (InspectionNames.is_private name); [|reflexivity].
    now specialize (Hpp eq_refl).
Qed.

(** X11: a name is public exactly when it does not start with an
    underscore; every private name is protected; a name that starts and
    ends with two underscores is neither private nor public. *)
Theorem public_names_have_no_underscore (name : string) :
  InspectionNames.is_public name = negb (prefix "_" name)
  /\ (InspectionNames.is_private name = true ->
      InspectionNames.is_protected name = true)
  /\ (InspectionNames.is_object_feature name = true ->
      InspectionNames.is_private name = false
      /\ InspectionNames.is_public name = false).
Proof.
  split; [apply is_public_no_underscore|].
  split; [apply is_private_protected|].
  intros Hfeature. split.
  - unfold InspectionNames.is_private. now rewrite Hfeature.
  - rewrite is_public_no_underscore.
    unfold InspectionNames.is_object_feature, InspectionNames.startswith
      in Hfeature.
    apply andb_true_iff in Hfeature as [Hstart _].
    now rewrite (prefix_two_one name Hstart).
Qed.

(** X12: [get_public_fields] keeps, in their order and with their values,
    exactly the fields whose name does not start with an underscore; an
    object without [__dict__] is a [TypeError]. *)
Theorem public_fields_are_the_plain_ones {V : Type}
        (fields : list (string * V)) :
  InspectionNames.get_public_fields (Some fields)
  = Ok (filter (fun entry => negb (prefix "_" (fst entry))) fields)
  /\ InspectionNames.get_public_fields (@None (list (string * V)))
     = Raise (TypeError "object must implement the __dict__ attribute.").
Proof.
  split; [|reflexivity].
  unfold InspectionNames.get_public_fields. simpl. f_equal.
  apply filter_ext. intros entry.
  apply is_public_no_underscore.
Qed.

(** ** The orchestrator: what each step changes *)

Section Steps.

Import Argument Arguments.

(** X13: reconciliation changes nothing but the two flags [required] and
    [has_initializer] of the descriptors, whether it returns or raises,
    and it neither reads the input nor adds to the trace. *)
Theorem reconciliation_changes_only_flags (args : list Argument)
        (params : list InitializerParameter) :
  Forall2 (fun d d' => exists h r, d' = flagged d h r)
          args (fst (_mark_required_args args params))
  /\ forall (cls : ClassDef) (w : World),
      argv (fst (_check_required_args cls w)) = argv w
      /\ events (fst (_check_required_args cls w)) = events w.
Proof.
  split.
  - induction args as [|d rest IH]; simpl; [constructor|].
    destruct (mark_arg_shape params d) as [h [r Hd]].
    destruct (_mark_required_arg d params) as [d' [[]|e]]; simpl in Hd.
    + destruct (_mark_required_args rest params) as [rest' res].
      simpl in *. constructor; [now exists h, r|exact IH].
    + simpl. constructor; [now exists h, r|].
      clear. induction rest as [|x rest IH]; constructor; [|exact IH].
      exists (has_initializer x), (required x).
      symmetry; apply flagged_self.
  - intros cls w. unfold _check_required_args.
    destruct (_mark_required_args _ _). split; reflexivity.
Qed.

Lemma set_value_self (d : Argument) : set_value d (value d) = d.
Proof. destruct d; reflexivity. Qed.

Lemma assign_value_shape (ns : Namespace) :
  forall d, exists v, _assign_parsed_value d ns = set_value d v.
Proof.
  induction ns as [|[k v0] rest IH]; intros d; simpl.
  - exists (value d). symmetry; apply set_value_self.
  - destruct (name_is d k); [|apply IH].
    destruct (IH (set_value d v0)) as [v Hv]. exists v. now rewrite Hv.
Qed.

Lemma assign_value_absent (ns : Namespace) :
  forall d,
    (forall n, name d = Some n -> ~ In n (map fst ns)) ->
    _assign_parsed_value d ns = d.
Proof.
  induction ns as [|[k v0] rest IH]; intros d Habsent; simpl;
    [reflexivity|].
  destruct (name_is d k) eqn:Hk.
  - apply name_is_true in Hk. exfalso.
    apply (Habsent k Hk). now left.
  - apply IH. intros n Hn Hin. apply (Habsent n Hn). now right.
Qed.

Lemma assign_value_present (ns : Namespace) :
  NoDup (map fst ns) ->
  forall d n v,
    name d = Some n ->
    In (n, v) ns ->
    value (_assign_parsed_value d ns) = v.
Proof.
  induction ns as [|[k v0] rest IH]; intros Hnodup d n v Hn Hin;
    [contradiction|].
  simpl in Hnodup. inversion Hnodup as [|? ? Hk Hrest]; subst.
  simpl. destruct (name_is d k) eqn:Hdk.
  - apply name_is_true in Hdk. rewrite Hn in Hdk. injection Hdk as ->.
    destruct Hin as [[= <-]|Hin].
    + rewrite assign_value_absent; [reflexivity|].
      intros n' Hn'. simpl in Hn'. rewrite Hn in Hn'.
      injection Hn' as <-. exact Hk.
    + now apply (IH Hrest (set_value d v0) k v).
  - destruct Hin as [[= -> ->]|Hin].
    + unfold name_is in Hdk. rewrite Hn, String.eqb_refl in Hdk.
      discriminate.
    + now apply (IH Hrest d n v).
Qed.

(** X14: assigning the parsed values changes nothing but the [value] of
    the descriptors.  A descriptor whose name is not a key of the parsed
    mapping keeps its value; one whose name is a key takes the value
    stored under it. *)
Theorem assign_parsed_values_sets_values (args : list Argument)
        (ns : Namespace) :
  Forall2
    (fun d d' =>
       (exists v, d' = set_value d v)
       /\ ((forall n, name d = Some n -> ~ In n (map fst ns)) -> d' = d)
       /\ (NoDup (map fst ns) ->
           forall n v, name d = Some n -> In (n, v) ns -> value d' = v))
    args (_assign_parsed_values args ns).
Proof.
  unfold _assign_parsed_values.
  apply Forall2_map_self. intros d _. split; [|split].
  - apply assign_value_shape.
  - apply assign_value_absent.
  - intros Hnodup n v. now apply assign_value_present.
Qed.

End Steps.

Section Traces.

Import Argument Arguments.

Variable lib : FlagLibrary.
Variable cls : ClassDef.

Lemma set_each_trace (optional_args : list Argument) :
  forall instance w,
    exists sets,
      events (fst (set_each cls instance optional_args w))
      = (events w ++ sets)%list
      /\ forallb is_assignment sets = true
      /\ descriptors (fst (set_each cls instance optional_args w))
         = descriptors w
      /\ argv (fst (set_each cls instance optional_args w)) = argv w
      /\ (forall result,
             snd (set_each cls instance optional_args w) = Ok result ->
             Forall2 (fun d ev =>
                        exists n, name d = Some n
                                  /\ ev = SetAttr n (value d))
                     optional_args sets).
Proof.
  induction optional_args as [|d rest IH]; intros instance w; simpl.
  - exists []. rewrite app_nil_r.
    split; [reflexivity|]. split; [reflexivity|].
    split; [reflexivity|]. split; [reflexivity|].
    intros; constructor.
  - destruct (name d) as [n|] eqn:Hn.
    + destruct (setattr cls instance n (value d)) as [instance'|e].
      * destruct (IH instance' (emit w (SetAttr n (value d))))
          as [sets [Hev [Hall [Hd [Ha Hok]]]]].
        exists (SetAttr n (value d) :: sets).
        rewrite Hev, Hd, Ha. simpl. rewrite <- app_assoc.
        split; [reflexivity|]. split; [exact Hall|].
        split; [reflexivity|]. split; [reflexivity|].
        intros result Hres. constructor; [now exists n|].
        now apply (Hok result).
      * exists [SetAttr n (value d)]. simpl.
        split; [reflexivity|]. split; [reflexivity|].
        split; [reflexivity|]. split; [reflexivity|].
        intros result H; discriminate H.
    + exists []. simpl. rewrite app_nil_r.
      split; [reflexivity|]. split; [reflexivity|].
      split; [reflexivity|]. split; [reflexivity|].
      intros result H; discriminate H.
Qed.

(** What [_create_instance] has done when it returns an instance. *)
Lemma create_instance_ok (args : list Argument) (w w' : World)
      (instance : Instance) :
  _create_instance cls args w = (w', Ok instance) ->
  exists kwargs sets,
    keywords (_get_initialization_params args) = Ok kwargs
    /\ events w' = (events w ++ Construct kwargs :: sets)%list
    /\ Forall2 (fun d ev =>
                  exists n, name d = Some n /\ ev = SetAttr n (value d))
               (filter (fun d => is_some (fset d)) args) sets
    /\ descriptors w' = descriptors w.
Proof.
  unfold _create_instance, _set_optional_args.
  destruct (keywords (_get_initialization_params args)) as [kwargs|e];
    [|intros H; discriminate H].
  destruct (construct cls kwargs) as [instance0|e];
    [|intros H; discriminate H].
  intros Hcall.
  destruct (set_each_trace (filter (fun d => is_some (fset d)) args)
              instance0 (emit w (Construct kwargs)))
    as [sets [Hev [_ [Hd [_ Hok]]]]].
  rewrite Hcall in Hev, Hd, Hok. simpl in Hev, Hd, Hok.
  exists kwargs, sets. split; [reflexivity|].
  split; [now rewrite Hev, <- app_assoc|].
  split; [now apply (Hok instance)|exact Hd].
Qed.

(** X15: when [_create_instance] returns an instance, it has called the
    constructor once, with the keyword arguments drawn from the
    descriptors, and has then assigned every descriptor that has a write
    accessor, once each and in discovery order; the descriptors
    themselves are unchanged. *)
Theorem create_instance_constructs_then_assigns
        (args : list Argument) (w w' : World) (instance : Instance) :
  _create_instance cls args w = (w', Ok instance) ->
  exists kwargs sets,
    keywords (_get_initialization_params args) = Ok kwargs
    /\ events w' = (events w ++ Construct kwargs :: sets)%list
    /\ Forall2 (fun d ev =>
                  exists n, name d = Some n /\ ev = SetAttr n (value d))
               (filter (fun d => is_some (fset d)) args) sets
    /\ descriptors w' = descriptors w.
Proof. apply create_instance_ok. Qed.

Lemma dict_set_keys {V : Type} (k : option string) (v : V)
      (d : list (option string * V)) :
  In k (map fst (dict_set k v d))
  /\ forall k', In k' (map fst d) -> In k' (map fst (dict_set k v d)).
Proof.
  induction d as [|[k0 v0] rest [IHk IHrest]]; simpl.
  - split; [now left|tauto].
  - destruct (key_eqb k0 k) eqn:Hk; simpl.
    + split; [|tauto]. left.
      destruct k0 as [a|], k as [b|]; simpl in Hk; try discriminate;
        [apply String.eqb_eq in Hk; now subst|reflexivity].
    + split; [now right|].
      intros k' [H|H]; [now left|right; now apply IHrest].
Qed.

Lemma initialization_params_keys (args : list Argument) :
  forall (acc : list (option string * option PyValue)) d,
    (In d args \/ In (name d) (map fst acc)) ->
    In (name d)
       (map fst (fold_left (fun dict arg =>
                              dict_set (name arg) (value arg) dict)
                           args acc)).
Proof.
  induction args as [|a rest IH]; intros acc d H; simpl.
  - destruct H as [[]|H]; exact H.
  - apply IH. destruct H as [[<-|H]|H].
    + right. apply (proj1 (dict_set_keys (name a) (value a) acc)).
    + now left.
    + right. now apply (proj2 (dict_set_keys (name a) (value a) acc)).
Qed.

Lemma keywords_keys {V : Type} (d : list (option string * V))
      (kwargs : list (string * V)) (n : string) :
  keywords d = Ok kwargs ->
  In (Some n) (map fst d) -> In n (map fst kwargs).
Proof.
  revert kwargs. induction d as [|[[k|] v] rest IH]; intros kwargs; simpl.
  - intros _ [].
  - destruct (keywords rest) as [kw|e]; simpl; [|intros H; discriminate H].
    intros [= <-] [[= ->]|Hin]; simpl; [now left|right].
    now apply IH.
  - intros H; discriminate H.
Qed.

(** X16: a descriptor that is bound to a constructor parameter and also
    has a write accessor is bound twice by a successful
    [_create_instance]: its name is among the constructor's keyword
    arguments and its value is assigned again after construction. *)
Theorem initializer_and_setter_bind_twice
        (args : list Argument) (w w' : World) (instance : Instance)
        (d : Argument) (n : string) :
  _create_instance cls args w = (w', Ok instance) ->
  In d args ->
  has_initializer d = true ->
  fset d <> None ->
  name d = Some n ->
  exists kwargs sets,
    events w' = (events w ++ Construct kwargs :: sets)%list
    /\ In n (map fst kwargs)
    /\ In (SetAttr n (value d)) sets.
Proof.
  intros Hcall Hin Hinit Hfset Hname.
  destruct (create_instance_ok args w w' instance Hcall)
    as [kwargs [sets [Hkw [Hev [Hsets _]]]]].
  assert (Hsome : is_some (fset d) = true).
  { unfold is_some, is_none. destruct (fset d); [reflexivity|contradiction]. }
  exists kwargs, sets. split; [exact Hev|]. split.
  - apply (keywords_keys _ _ n Hkw). rewrite <- Hname.
    unfold _get_initialization_params.
    apply initialization_params_keys. left.
    apply filter_In. split; [exact Hin|].
    unfold _use_initializer. now rewrite Hinit, Hsome.
  - assert (Hd : In d (filter (fun x => is_some (fset x)) args))
      by (apply filter_In; now split).
    clear - Hsets Hd Hname.
    induction Hsets as [|x ev xs evs [m [Hm Hev]] _ IH]; [contradiction|].
    destruct Hd as [<-|Hd].
    + left. rewrite Hname in Hm. injection Hm as <-. now symmetry.
    + right. now apply IH.
Qed.

(** X17: the trace of [parse()], in every case: nothing at all, or the
    input read and nothing more, or the input read and the usage printed,
    or the input read, then one construction, then assignments only.  So
    the input is read at most once and before anything else, nothing is
    constructed before the input has been parsed, and no attribute is
    assigned before the construction. *)
Theorem parse_trace_shape (w : World) :
  exists new,
    events (fst (parse lib cls w)) = (events w ++ new)%list
    /\ (new = []
        \/ new = [ReadArgv]
        \/ new = [ReadArgv; PrintUsage]
        \/ exists kwargs sets,
            new = ReadArgv :: Construct kwargs :: sets
            /\ forallb is_assignment sets = true).
Proof.
  unfold parse, _parse_arguments, _parse_and_check_args.
  destruct (check_keeps_input cls w (fst (_check_required_args cls w))
              (snd (_check_required_args cls w)))
    as [_ Hev1]; [now destruct (_check_required_args cls w)|].
  destruct (_check_required_args cls w) as [w1 [[]|e]]; simpl in Hev1;
    [|exists []; simpl; rewrite app_nil_r; split; [exact Hev1|now left]].
  destruct (_add_arguments lib _ (descriptors w1)) as [parser|e];
    [|exists []; simpl; rewrite app_nil_r; split; [exact Hev1|now left]].
  unfold _parse_known_args, PropertyArgumentParser.parse_known_args,
    PropertyArgumentParser.error.
  destruct (lib_parse_known_args lib _ _) as [ns extras|message|e]; simpl.
  - unfold _create_instance, _set_optional_args. simpl.
    destruct (keywords _) as [kwargs|e]; simpl;
      [|exists [ReadArgv]; rewrite Hev1; split; [reflexivity|tauto]].
    destruct (construct cls kwargs) as [instance|e]; simpl.
    + match goal with
      | |- context [set_each cls instance ?opt ?w0] =>
          destruct (set_each_trace opt instance w0)
            as [sets [Hev [Hall _]]]
      end.
      exists (ReadArgv :: Construct kwargs :: sets).
      rewrite Hev. simpl. rewrite Hev1, <- !app_assoc. simpl.
      split; [reflexivity|]. right; right; right.
      now exists kwargs, sets.
    + exists [ReadArgv; Construct kwargs].
      rewrite Hev1, <- app_assoc. simpl. split; [reflexivity|].
      right; right; right. now exists kwargs, [].
  - exists [ReadArgv; PrintUsage]. rewrite Hev1, <- app_assoc. simpl.
    split; [reflexivity|tauto].
  - exists [ReadArgv]. rewrite Hev1. split; [reflexivity|tauto].
Qed.

(** X18: an error of validation or of registration comes out of
    [parse()] as it is, before the process input is read: the trace is
    unchanged. *)
Theorem parse_fails_before_reading (w : World) (e : Raised) :
  (snd (_check_required_args cls w) = Raise e
   \/ (snd (_check_required_args cls w) = Ok tt
       /\ _add_arguments lib (PropertyArgumentParser.__init__ HelpFormatter)
            (descriptors (fst (_check_required_args cls w))) = Raise e)) ->
  snd (parse lib cls w) = Raise e
  /\ events (fst (parse lib cls w)) = events w
  /\ descriptors (fst (parse lib cls w))
     = descriptors (fst (_check_required_args cls w)).
Proof.
  unfold parse, _parse_arguments, _parse_and_check_args.
  destruct (check_keeps_input cls w (fst (_check_required_args cls w))
              (snd (_check_required_args cls w)))
    as [_ Hev1]; [now destruct (_check_required_args cls w)|].
  destruct (_check_required_args cls w) as [w1 [[]|e1]];
    simpl in *.
  - intros [H|[_ Hadd]]; [discriminate H|]. rewrite Hadd. simpl.
    repeat split. exact Hev1.
  - intros [[= <-]|[H _]]; [|discriminate H]. repeat split. exact Hev1.
Qed.

End Traces.

Lemma create_instance_constructs_then_assigns_witness :
  let args := [flagged title_argument true false] in
  let w := titled_world [] in
  let w' := fst (Arguments._create_instance Titled args w) in
  Arguments._create_instance Titled args w
  = (w', Ok [("title", Some (VStr "Dr"))])
  /\ exists kwargs sets,
      Arguments.keywords (Arguments._get_initialization_params args)
      = Ok kwargs
      /\ events w' = (events w ++ Construct kwargs :: sets)%list
      /\ Forall2 (fun d ev =>
                    exists n, Argument.name d = Some n
                              /\ ev = SetAttr n (Argument.value d))
                 (filter (fun d => Arguments.is_some (Argument.fset d)) args)
                 sets
      /\ descriptors w' = descriptors w.
Proof.
  intros args w w'. split; [reflexivity|].
  exact (create_instance_constructs_then_assigns Titled args w w'
           [("title", Some (VStr "Dr"))] eq_refl).
Defined.

Lemma initializer_and_setter_bind_twice_witness :
  let d := flagged title_argument true false in
  let w := titled_world [] in
  let w' := fst (Arguments._create_instance Titled [d] w) in
  Arguments._create_instance Titled [d] w
  = (w', Ok [("title", Some (VStr "Dr"))])
  /\ In d [d]
  /\ Argument.has_initializer d = true
  /\ Argument.fset d <> None
  /\ Argument.name d = Some "title"
  /\ exists kwargs sets,
      events w' = (events w ++ Construct kwargs :: sets)%list
      /\ In "title" (map fst kwargs)
      /\ In (SetAttr "title" (Argument.value d)) sets.
Proof.
  intros d w w'.
  assert (Hin : In d [d]) by (now left).
  assert (Hfset : Argument.fset d <> None) by discriminate.
  split; [reflexivity|]. split; [exact Hin|]. split; [reflexivity|].
  split; [exact Hfset|]. split; [reflexivity|].
  exact (initializer_and_setter_bind_twice Titled [d] w w'
           [("title", Some (VStr "Dr"))] d "title"
           eq_refl Hin eq_refl Hfset eq_refl).
Defined.

Lemma parse_fails_before_reading_witness :
  let w := salute_world ["--title"; "Sir"] in
  let e := configuration_error greeting_argument in
  (snd (Arguments._check_required_args Salute w) = Raise e
   \/ (snd (Arguments._check_required_args Salute w) = Ok tt
       /\ Arguments._add_arguments SimpleArgparse.library
            (PropertyArgumentParser.__init__ HelpFormatter)
            (descriptors (fst (Arguments._check_required_args Salute w)))
          = Raise e))
  /\ snd (Arguments.parse SimpleArgparse.library Salute w) = Raise e
  /\ events (fst (Arguments.parse SimpleArgparse.library Salute w))
     = events w
  /\ descriptors (fst (Arguments.parse SimpleArgparse.library Salute w))
     = descriptors (fst (Arguments._check_required_args Salute w)).
Proof.
  intros w e.
  assert (H : snd (Arguments._check_required_args Salute w) = Raise e
              \/ (snd (Arguments._check_required_args Salute w) = Ok tt
                  /\ Arguments._add_arguments SimpleArgparse.library
                       (PropertyArgumentParser.__init__ HelpFormatter)
                       (descriptors
                          (fst (Arguments._check_required_args Salute w)))
                     = Raise e))
    by (left; reflexivity).
  split; [exact H|].
  exact (parse_fails_before_reading SimpleArgparse.library Salute w e H).
Defined.

(** ** Attaching the read accessor, continued *)

Section AttachMore.

Import Argument.

Lemma or_str_same (a : option string) : or_str a a = a.
Proof. unfold or_str. now destruct (truthy_str a). Qed.

Lemma or_str_absorb (a b : option string) :
  or_str (or_str a b) b = or_str a b.
Proof.
  unfold or_str. destruct (truthy_str a) eqn:Ha.
  - now rewrite Ha.
  - now destruct (truthy_str b).
Qed.

Lemma get_doc_again (h fdoc : option string) (text : string) :
  or_str fdoc h = Some text ->
  exists text',
    or_str fdoc (or_str h (Some (strip text))) = Some text'
    /\ strip text' = strip text.
Proof.
  unfold or_str. destruct (truthy_str fdoc) eqn:Hf.
  - intros ->. now exists text.
  - intros ->. destruct text as [|c rest]; simpl.
    + now exists "".
    + now exists (String c rest).
Qed.

(** X19: attaching the same read accessor a second time changes nothing:
    after an attachment that succeeded, a new attachment of the same
    accessor succeeds and leaves the descriptor as it is. *)
Theorem getter_twice (self : Argument) (f : PyFunction) :
  snd (getter self f) = Ok tt ->
  getter (fst (getter self f)) f = getter self f.
Proof.
  destruct self as [g s d dc h df v na co ch rq nm ot ty mv oa ac hi].
  unfold getter, _get_type, _get_doc, PropertyLike_getter.
  cbn -[strip _resolve_generic_type or_str _get_action_type type_name
        _get_type_from_annotation].
  set (dt := match ot with
             | Some t => t
             | None => _get_type_from_annotation f
             end).
  destruct (_resolve_generic_type dt) as [resolved|e] eqn:Hres;
    [|intros H; discriminate H].
  cbn -[strip _resolve_generic_type or_str _get_action_type type_name
        _get_type_from_annotation].
  destruct (or_str (fn_doc f) h) as [text|] eqn:Hdoc;
    [|intros H; discriminate H].
  cbn -[strip _resolve_generic_type or_str _get_action_type type_name
        _get_type_from_annotation].
  intros _. fold dt. rewrite Hres.
  cbn -[strip _resolve_generic_type or_str _get_action_type type_name
        _get_type_from_annotation].
  destruct (get_doc_again h (fn_doc f) text Hdoc) as [text' [Hagain Hstrip]].
  rewrite Hagain, Hstrip, !or_str_absorb. reflexivity.
Qed.

(** X20: for a declared type that is not a list class, with a docstring
    or a help override at hand, attaching the read accessor succeeds and
    derives the metadata: the name is the accessor's identifier, the type
    is the declared type, the action is ['store_switch'] for a boolean
    type and ['store'] otherwise, the display token is the override or
    else the type's name, the help text is the override or else the
    stripped documentation; flags, default, value and write accessor are
    untouched. *)
Theorem getter_of_scalar_type (self : Argument) (f : PyFunction) :
  issubclass_list (declared_type self f) = false ->
  or_str (fn_doc f) (help self) <> None ->
  let d := fst (getter self f) in
  snd (getter self f) = Ok tt
  /\ fget d = Some f
  /\ name d = Some (fn_name f)
  /\ type d = Some (declared_type self f)
  /\ action d
     = Some (if issubclass_bool (declared_type self f)
             then "store_switch" else "store")
  /\ metavar d
     = or_str (metavar self) (Some (type_name (declared_type self f)))
  /\ (exists text,
         or_str (fn_doc f) (help self) = Some text
         /\ doc d = Some (strip text)
         /\ help d = or_str (help self) (Some (strip text)))
  /\ required d = required self
  /\ has_initializer d = has_initializer self
  /\ default d = default self
  /\ value d = value self
  /\ fset d = fset self.
Proof.
  intros Hlist Hdoc d. subst d.
  unfold getter. rewrite _get_type_after_attach.
  unfold _resolve_generic_type. rewrite Hlist.
  match goal with
  | |- context [_get_doc ?s f] => change (_get_doc s f) with (_get_doc self f)
  end.
  unfold _get_doc.
  destruct (or_str (fn_doc f) (help self)) as [text|]; [|contradiction].
  unfold _get_action_type, _default_action. rewrite Hlist.
  destruct self. cbn.
  repeat (split; [reflexivity|]).
  split; [exists text; repeat split; reflexivity|].
  repeat split; reflexivity.
Qed.

(** X21: a declared type that is a list class without type arguments (the
    plain [list], or a class derived from it) cannot be attached: reading
    [__args__] raises [AttributeError].  The accessor and the name have
    been recorded by then; type, action and help have not. *)
Theorem getter_of_plain_list (self : Argument) (f : PyFunction) :
  issubclass_list (declared_type self f) = true ->
  (forall args, declared_type self f <> TTypingList args) ->
  getter self f
  = (set_name (set_fget self (Some f)) (Some (fn_name f)),
     Raise (AttributeError
              ("type object '" ++ type_name (declared_type self f)
               ++ "' has no attribute '__args__'"))).
Proof.
  intros Hlist Hplain.
  unfold getter. rewrite _get_type_after_attach.
  unfold _resolve_generic_type, _get_first_generic_type. rewrite Hlist.
  destruct (declared_type self f) as [| | | | | |args|cname base] eqn:Hd;
    try discriminate Hlist; try reflexivity.
  now destruct (Hplain args).
Qed.

End AttachMore.

Lemma getter_twice_witness :
  snd (Argument.getter plain_argument name_getter) = Ok tt
  /\ Argument.getter (fst (Argument.getter plain_argument name_getter))
                     name_getter
     = Argument.getter plain_argument name_getter.
Proof.
  split; [reflexivity|].
  exact (getter_twice plain_argument name_getter eq_refl).
Defined.

Lemma getter_of_scalar_type_witness :
  let d := fst (Argument.getter plain_argument verbose_getter) in
  issubclass_list (declared_type plain_argument verbose_getter) = false
  /\ or_str (fn_doc verbose_getter) (Argument.help plain_argument) <> None
  /\ snd (Argument.getter plain_argument verbose_getter) = Ok tt
  /\ Argument.fget d = Some verbose_getter
  /\ Argument.name d = Some (fn_name verbose_getter)
  /\ Argument.type d = Some (declared_type plain_argument verbose_getter)
  /\ Argument.action d
     = Some (if issubclass_bool (declared_type plain_argument verbose_getter)
             then "store_switch" else "store")
  /\ Argument.metavar d
     = or_str (Argument.metavar plain_argument)
              (Some (type_name (declared_type plain_argument verbose_getter)))
  /\ (exists text,
         or_str (fn_doc verbose_getter) (Argument.help plain_argument)
         = Some text
         /\ Argument.doc d = Some (strip text)
         /\ Argument.help d
            = or_str (Argument.help plain_argument) (Some (strip text)))
  /\ Argument.required d = Argument.required plain_argument
  /\ Argument.has_initializer d = Argument.has_initializer plain_argument
  /\ Argument.default d = Argument.default plain_argument
  /\ Argument.value d = Argument.value plain_argument
  /\ Argument.fset d = Argument.fset plain_argument.
Proof.
  intros d.
  assert (Hdoc : or_str (fn_doc verbose_getter) (Argument.help plain_argument)
                 <> None) by discriminate.
  split; [reflexivity|]. split; [exact Hdoc|].
  exact (getter_of_scalar_type plain_argument verbose_getter eq_refl Hdoc).
Defined.

Lemma getter_of_plain_list_witness :
  issubclass_list (declared_type plain_argument items_getter) = true
  /\ (forall args, declared_type plain_argument items_getter
                   <> TTypingList args)
  /\ Argument.getter plain_argument items_getter
     = (Argument.set_name (Argument.set_fget plain_argument (Some items_getter))
                          (Some (fn_name items_getter)),
        Raise (AttributeError
                 ("type object '"
                  ++ type_name (declared_type plain_argument items_getter)
                  ++ "' has no attribute '__args__'"))).
Proof.
  assert (Hplain : forall args, declared_type plain_argument items_getter
                                <> TTypingList args)
    by (intros args H; discriminate H).
  split; [reflexivity|]. split; [exact Hplain|].
  exact (getter_of_plain_list plain_argument items_getter eq_refl Hplain).
Defined.

(** ** Registration and constructor arguments *)

Section Registration.

Import Argument Arguments.

Variable lib : FlagLibrary.

(** X22: when registration succeeds, the parser has gained exactly one
    flag per descriptor, in discovery order: the flag is ["--"] followed
    by the descriptor's name and it carries the descriptor's action,
    default, type, display token, required flag and help text. *)
Theorem add_arguments_one_flag_each :
  forall (args : list Argument)
         (parser parser' : PropertyArgumentParser.Parser),
    _add_arguments lib parser args = Ok parser' ->
    exists regs,
      PropertyArgumentParser.registrations parser'
      = (PropertyArgumentParser.registrations parser ++ regs)%list
      /\ PropertyArgumentParser.formatter_class parser'
         = PropertyArgumentParser.formatter_class parser
      /\ Forall2 (fun d r =>
                    exists n,
                      name d = Some n
                      /\ r = mkRegistration ("--" ++ n) (action d)
                               (default d) (type d) (metavar d)
                               (required d) (help d))
                 args regs.
Proof.
  induction args as [|d rest IH]; intros parser parser'; simpl.
  - intros [= <-]. exists []. rewrite app_nil_r.
    split; [reflexivity|]. split; [reflexivity|constructor].
  - unfold PropertyArgumentParser.add_argument_details.
    destruct (name d) as [n|] eqn:Hn; [|intros H; discriminate H].
    destruct (lib_add_argument lib _ _) as [[]|e];
      [|intros H; discriminate H].
    simpl. intros Hrest.
    destruct (IH _ _ Hrest) as [regs [Hregs [Hfmt Hall]]].
    simpl in Hregs, Hfmt.
    eexists (_ :: regs). rewrite Hregs, <- app_assoc. simpl.
    split; [reflexivity|]. split; [exact Hfmt|].
    constructor; [|exact Hall]. now exists n.
Qed.

Lemma dict_set_keys_inv {V : Type} (k : option string) (v : V)
      (d : list (option string * V)) (k' : option string) :
  In k' (map fst (dict_set k v d)) -> k' = k \/ In k' (map fst d).
Proof.
  induction d as [|[k0 v0] rest IH]; simpl.
  - intros [H|[]]. now left.
  - destruct (key_eqb k0 k); simpl.
    + tauto.
    + intros [H|H]; [tauto|]. destruct (IH H); tauto.
Qed.

Lemma initialization_params_keys_inv (args : list Argument) :
  forall (acc : list (option string * option PyValue)) k,
    In k (map fst (fold_left (fun dict arg =>
                                dict_set (name arg) (value arg) dict)
                             args acc)) ->
    In k (map fst acc) \/ exists d, In d args /\ name d = k.
Proof.
  induction args as [|a rest IH]; intros acc k; simpl; [tauto|].
  intros H. destruct (IH _ _ H) as [Hacc|[d [Hd Hk]]].
  - destruct (dict_set_keys_inv _ _ _ _ Hacc) as [->|Hin]; [|tauto].
    right. exists a. split; [now left|reflexivity].
  - right. exists d. split; [now right|exact Hk].
Qed.

Lemma keywords_keys_inv {V : Type} (d : list (option string * V))
      (kwargs : list (string * V)) (n : string) :
  keywords d = Ok kwargs ->
  In n (map fst kwargs) -> In (Some n) (map fst d).
Proof.
  revert kwargs. induction d as [|[[k|] v] rest IH]; intros kwargs; simpl.
  - intros [= <-] [].
  - destruct (keywords rest) as [kw|e]; simpl; [|intros H; discriminate H].
    intros [= <-] Hin. simpl in Hin.
    destruct Hin as [->|Hin]; [now left|right].
    now apply (IH kw).
  - intros H; discriminate H.
Qed.

(** X23: the constructor is only ever given values of descriptors that
    are bound to a constructor parameter and have a write accessor or are
    required: every keyword argument bears the name of such a
    descriptor. *)
Theorem constructor_arguments_are_bound (args : list Argument)
        (kwargs : list (string * option PyValue)) (n : string) :
  keywords (_get_initialization_params args) = Ok kwargs ->
  In n (map fst kwargs) ->
  exists d,
    In d args
    /\ name d = Some n
    /\ has_initializer d = true
    /\ (fset d <> None \/ required d = true).
Proof.
  intros Hkw Hin.
  apply (keywords_keys_inv _ _ _ Hkw) in Hin.
  unfold _get_initialization_params in Hin.
  apply initialization_params_keys_inv in Hin as [[]|[d [Hd Hname]]].
  apply filter_In in Hd as [Hd Huse].
  unfold _use_initializer in Huse.
  apply andb_true_iff in Huse as [Hinit Hset].
  exists d. repeat split; try assumption.
  apply orb_true_iff in Hset as [Hset|Hreq]; [left|now right].
  unfold is_some, is_none in Hset. destruct (fset d); [discriminate|].
  discriminate Hset.
Qed.

End Registration.

Lemma add_arguments_one_flag_each_witness :
  let parser := PropertyArgumentParser.__init__ HelpFormatter in
  let parser' :=
    PropertyArgumentParser.mkParser HelpFormatter
      [mkRegistration "--name" (Some "store") None (Some TStr) (Some "str")
                      false (Some "The name to greet.");
       mkRegistration "--title" (Some "store") (Some (VStr "Dr"))
                      (Some TStr) (Some "str") false
                      (Some "The title to use.")] in
  Arguments._add_arguments SimpleArgparse.library parser
    [name_argument; title_argument] = Ok parser'
  /\ exists regs,
      PropertyArgumentParser.registrations parser'
      = (PropertyArgumentParser.registrations parser ++ regs)%list
      /\ PropertyArgumentParser.formatter_class parser'
         = PropertyArgumentParser.formatter_class parser
      /\ Forall2 (fun d r =>
                    exists n,
                      Argument.name d = Some n
                      /\ r = mkRegistration ("--" ++ n) (Argument.action d)
                               (Argument.default d) (Argument.type d)
                               (Argument.metavar d) (Argument.required d)
                               (Argument.help d))
                 [name_argument; title_argument] regs.
Proof.
  intros parser parser'. split; [reflexivity|].
  exact (add_arguments_one_flag_each SimpleArgparse.library
           [name_argument; title_argument] parser parser' eq_refl).
Defined.

Lemma constructor_arguments_are_bound_witness :
  let args := [flagged name_argument true true; title_argument] in
  Arguments.keywords (Arguments._get_initialization_params args)
  = Ok [("name", None)]
  /\ In "name" (map fst [("name", @None PyValue)])
  /\ exists d,
      In d args
      /\ Argument.name d = Some "name"
      /\ Argument.has_initializer d = true
      /\ (Argument.fset d <> None \/ Argument.required d = true).
Proof.
  intros args.
  assert (Hin : In "name" (map fst [("name", @None PyValue)]))
    by (now left).
  split; [reflexivity|]. split; [exact Hin|].
  exact (constructor_arguments_are_bound args [("name", None)] "name"
           eq_refl Hin).
Defined.
